(** * athena_query_executor: a shallow embedding and its properties

    The embedded program is [src/athena_tools/athena_query_executor.py]:
    a command line tool that submits a query to Athena, polls until the
    execution reaches a final state, derives the S3 address of the result
    and downloads it.

    Strings are Rocq [string]s, that is sequences of bytes.  The program
    only ever compares with, slices after and splits on ASCII characters
    (the prefix [s3://] and the separator [/]); on UTF-8 text these
    operations act on bytes exactly as Python's act on code points. *)

From Stdlib Require Import Ascii String List Arith Lia Bool.
From stdpp Require Import base option strings list gmap.

Import ListNotations.

(** ** Python string methods used by the program *)

Module Str.

(** [s.startswith(p)] *)
Definition startswith (s p : string) : bool := String.prefix p s.

(** [s[n:]] *)
Fixpoint slice_from (n : nat) (s : string) : string :=
  match n, s with
  | O, _ => s
  | S _, EmptyString => EmptyString
  | S m, String _ r => slice_from m r
  end.

(** [sep in s] for a one character [sep] *)
Fixpoint contains (sep : ascii) (s : string) : bool :=
  match s with
  | EmptyString => false
  | String c r => if Ascii.eqb c sep then true else contains sep r
  end.

(** [s.split(sep, 1)] for a one character [sep]: the list has one
    element when [sep] does not occur, and two otherwise, cut at the
    first occurrence. *)
Fixpoint split1 (sep : ascii) (s : string) : list string :=
  match s with
  | EmptyString => [EmptyString]
  | String c r =>
      if Ascii.eqb c sep then [EmptyString; r]
      else match split1 sep r with
           | h :: t => String c h :: t
           | [] => [String c EmptyString]
           end
  end.

(** [s.rstrip(c)] for a one character [c]: drops the longest suffix
    made of [c] only. *)
Fixpoint rstrip (c : ascii) (s : string) : string :=
  match s with
  | EmptyString => EmptyString
  | String a r =>
      match rstrip c r with
      | EmptyString => if Ascii.eqb a c then EmptyString else String a EmptyString
      | r' => String a r'
      end
  end.

(** [c * n] *)
Fixpoint repeat (c : ascii) (n : nat) : string :=
  match n with
  | O => EmptyString
  | S m => String c (repeat c m)
  end.

(** [s.endswith(c)] for a one character [c] *)
Fixpoint endswith (s : string) (c : ascii) : bool :=
  match s with
  | EmptyString => false
  | String a EmptyString => Ascii.eqb a c
  | String _ r => endswith r c
  end.

End Str.

(** ** Exceptions *)

(** The exceptions the program and its collaborators raise.  [ValueError]
    is raised by the address parser, [KeyError] by a subscript on a
    dictionary that lacks the key, [Exception] by the query runner on a
    final state other than success, [ClientError] stands for the errors of
    the AWS client library.  All of these are instances of Python's
    [Exception]; [KeyboardInterrupt] is the one that is not. *)
Inductive Exn : Type :=
| ValueError (msg : string)
| KeyError (key : string)
| Exception (msg : string)
| ClientError (msg : string)
| KeyboardInterrupt.

(** [isinstance(e, Exception)] *)
Definition is_Exception (e : Exn) : bool :=
  match e with
  | KeyboardInterrupt => false
  | _ => true
  end.

(** [str(e)], as interpolated by [f"{e}"].  A [KeyError] prints the
    [repr] of its key. *)
Definition str (e : Exn) : string :=
  match e with
  | ValueError msg => msg
  | KeyError key => "'" +:+ key +:+ "'"
  | Exception msg => msg
  | ClientError msg => msg
  | KeyboardInterrupt => ""
  end.

Inductive result (A : Type) : Type :=
| Ok (a : A)
| Raise (e : Exn).
Arguments Ok {A} a.
Arguments Raise {A} e.

(** ** The address parser and the normalization *)

Definition slash : ascii := "/"%char.

Definition parse_s3_uri (s3_uri : string) : result (string * string) :=
  if negb (Str.startswith s3_uri "s3://") then
    Raise (ValueError "Invalid S3 URI. Must start with 's3://'")
  else
    let parts := Str.split1 slash (Str.slice_from 5 s3_uri) in
    match parts with
    | [bucket; key] => Ok (bucket, key)
    | _ => Raise (ValueError "Invalid S3 URI format.")
    end.

Definition ensure_no_trailing_slash (s : string) : string :=
  Str.rstrip slash s.

(** ** The world the program runs in *)

(** The part of the answer of [get_query_execution] the program reads:
    [response['QueryExecution']['Status']], with its key [State] and its
    optional key [StateChangeReason]. *)
Record StatusResponse : Type := {
  State : string;
  StateChangeReason : option string
}.

(** The value of the variable [response]: first the answer of
    [start_query_execution], which has the key [QueryExecutionId] only,
    then the latest answer of [get_query_execution]. *)
Inductive Response : Type :=
| StartResponse (QueryExecutionId : string)
| GetResponse (Status : StatusResponse).

(** The methods of the Athena client.  The second argument of
    [get_query_execution] is the number of polls made before this one:
    the service is a sequence of answers. *)
Record AthenaClient : Type := {
  start_query_execution : string -> string -> string -> result string;
  get_query_execution : string -> nat -> result StatusResponse
}.

Record S3Client : Type := {
  download_file : string -> string -> string -> result unit
}.

(** [boto3.Session(profile_name=...)] and its method [client]. *)
Record Session : Type := {
  client_athena : result AthenaClient;
  client_s3 : result S3Client
}.

(** The library: [boto3.Session], from a profile name to a session or
    an error. *)
Definition Boto3 : Type := string -> result Session.

(** What the program does to the outside, in order. *)
Inductive Call : Type :=
| CallStartQueryExecution (QueryString Database OutputLocation : string)
| CallGetQueryExecution (QueryExecutionId : string)
| CallSleep (seconds : nat)
| CallDownloadFile (bucket key filename : string).

Record World : Type := {
  polls : nat;
  calls : list Call;
  stdout : list string
}.

Definition world0 : World := {| polls := 0; calls := []; stdout := [] |}.

Definition record_call (c : Call) (w : World) : World :=
  {| polls := polls w; calls := calls w ++ [c]; stdout := stdout w |}.

Definition record_poll (id : string) (w : World) : World :=
  {| polls := S (polls w);
     calls := calls w ++ [CallGetQueryExecution id];
     stdout := stdout w |}.

Definition record_print (line : string) (w : World) : World :=
  {| polls := polls w; calls := calls w; stdout := stdout w ++ [line] |}.

(** Computations: a world in, a value or an exception and a world out;
    [None] when the fuel given to the polling loop is used up. *)
Definition M (A : Type) : Type := World -> option (result A * World).

Definition ret {A} (a : A) : M A := fun w => Some (Ok a, w).

Definition raise {A} (e : Exn) : M A := fun w => Some (Raise e, w).

Definition lift {A} (r : result A) : M A := fun w => Some (r, w).

Definition bind {A B} (m : M A) (k : A -> M B) : M B :=
  fun w =>
    match m w with
    | None => None
    | Some (Ok a, w') => k a w'
    | Some (Raise e, w') => Some (Raise e, w')
    end.

Notation "x <- m ;; k" := (bind m (fun x => k))
  (at level 20, m at level 99, k at level 200, only parsing).
Notation "m ;;; k" := (bind m (fun _ => k))
  (at level 100, k at level 200, right associativity, only parsing).

(** [try: m except Exception as e: h e] *)
Definition try_except {A} (m : M A) (h : Exn -> M A) : M A :=
  fun w =>
    match m w with
    | Some (Raise e, w') => if is_Exception e then h e w' else Some (Raise e, w')
    | other => other
    end.

Definition print (line : string) : M unit :=
  fun w => Some (Ok tt, record_print line w).

Definition sleep (seconds : nat) : M unit :=
  fun w => Some (Ok tt, record_call (CallSleep seconds) w).

Definition call_start_query_execution (client : AthenaClient)
    (query database output_location : string) : M string :=
  fun w =>
    Some (start_query_execution client query database output_location,
          record_call (CallStartQueryExecution query database output_location) w).

Definition call_get_query_execution (client : AthenaClient) (id : string)
    : M StatusResponse :=
  fun w => Some (get_query_execution client id (polls w), record_poll id w).

Definition call_download_file (s3 : S3Client) (bucket key filename : string)
    : M unit :=
  fun w =>
    Some (download_file s3 bucket key filename,
          record_call (CallDownloadFile bucket key filename) w).

(** [x in xs] on strings *)
Definition str_in (x : string) (xs : list string) : bool :=
  existsb (String.eqb x) xs.

(** ** The query runner *)

(** The loop [while status in ['RUNNING', 'QUEUED']], one unit of fuel
    for each evaluation of its condition. *)
Fixpoint poll_loop (fuel : nat) (client : AthenaClient)
    (query_execution_id : string) (status : string) (response : Response)
    : M (string * Response) :=
  match fuel with
  | O => fun _ => None
  | S fuel' =>
      if str_in status ["RUNNING"; "QUEUED"] then
        r <- call_get_query_execution client query_execution_id ;;
        let status := State r in
        if str_in status ["SUCCEEDED"; "FAILED"; "CANCELLED"] then
          ret (status, GetResponse r)
        else
          sleep 2 ;;;
          poll_loop fuel' client query_execution_id status (GetResponse r)
      else ret (status, response)
  end.

(** [response['QueryExecution']['Status']['StateChangeReason']] *)
Definition state_change_reason (response : Response) : result string :=
  match response with
  | StartResponse _ => Raise (KeyError "QueryExecution")
  | GetResponse r =>
      match StateChangeReason r with
      | Some reason => Ok reason
      | None => Raise (KeyError "StateChangeReason")
      end
  end.

Definition execute_athena_query (fuel : nat) (boto3 : Boto3)
    (query database output_location profile : string) : M string :=
  session <- lift (boto3 profile) ;;
  client <- lift (client_athena session) ;;
  query_execution_id <-
    call_start_query_execution client query database output_location ;;
  sr <- poll_loop fuel client query_execution_id "RUNNING"
          (StartResponse query_execution_id) ;;
  let '(status, response) := sr in
  if String.eqb status "SUCCEEDED" then
    ret (output_location +:+ "/" +:+ query_execution_id +:+ ".csv")
  else
    reason <- lift (state_change_reason response) ;;
    raise (Exception ("Query " +:+ status +:+ ": " +:+ reason)).

(** ** The artifact fetcher *)

Definition download_csv_from_s3 (boto3 : Boto3)
    (s3_uri profile output_file : string) : M unit :=
  session <- lift (boto3 profile) ;;
  s3 <- lift (client_s3 session) ;;
  bk <- lift (parse_s3_uri s3_uri) ;;
  let '(s3_bucket, s3_key) := bk in
  call_download_file s3 s3_bucket s3_key output_file.

(** ** The command line *)

Definition DEFAULT_S3_OUTPUT_URL : string := "s3://foo".

(** [os.environ] is a dictionary from names to values. *)
Definition DEFAULT_PROFILE (environ : gmap string string) : string :=
  match environ !! "AWS_PROFILE" with
  | None => "aberezin"
  | Some v => v
  end.

(** A command line that [argparse] accepts: the positional [query] and
    the four options, each given or not. *)
Record Argv : Type := {
  argv_query : string;
  argv_database : option string;
  argv_output_location : option string;
  argv_profile : option string;
  argv_output_file : option string
}.

Record Namespace : Type := {
  query : string;
  database : string;
  output_location : string;
  profile : string;
  output_file : string
}.

Definition parse_args (environ : gmap string string) (argv : Argv) : Namespace :=
  {| query := argv_query argv;
     database := default "stb_dev_tedm" (argv_database argv);
     output_location := default DEFAULT_S3_OUTPUT_URL (argv_output_location argv);
     profile := default (DEFAULT_PROFILE environ) (argv_profile argv);
     output_file := default "out.csv" (argv_output_file argv) |}.

Definition main_body (fuel : nat) (boto3 : Boto3) (args : Namespace) : M unit :=
  try_except
    (s3_uri <- execute_athena_query fuel boto3
                 (query args) (database args)
                 (ensure_no_trailing_slash (output_location args))
                 (profile args) ;;
     print ("Query succeeded. Result saved in: " +:+ s3_uri) ;;;
     download_csv_from_s3 boto3 s3_uri (profile args) (output_file args) ;;;
     print ("CSV downloaded successfully to: " +:+ output_file args))
    (fun e => print ("Error: " +:+ str e)).

Definition main (fuel : nat) (boto3 : Boto3) (environ : gmap string string)
    (argv : Argv) : M unit :=
  main_body fuel boto3 (parse_args environ argv).

(** The status the process exits with: 0 when [main] returns, 1 when an
    exception leaves it. *)
Definition exit_status (r : result unit) : nat :=
  match r with
  | Ok _ => 0
  | Raise _ => 1
  end.

(** ** Scripted collaborators, for running the program on examples *)

(** An Athena client that hands out [id] and then reports [answers] one
    after the other, and [last] for ever after. *)
Definition scripted_athena (id : string) (answers : list StatusResponse)
    (last : StatusResponse) : AthenaClient :=
  {| start_query_execution := fun _ _ _ => Ok id;
     get_query_execution := fun _ k => Ok (nth k answers last) |}.

Definition scripted_boto3 (id : string) (answers : list StatusResponse)
    (last : StatusResponse) (download : result unit) : Boto3 :=
  fun _ =>
    Ok {| client_athena := Ok (scripted_athena id answers last);
          client_s3 := Ok {| download_file := fun _ _ _ => download |} |}.

Definition answer (state : string) (reason : option string) : StatusResponse :=
  {| State := state; StateChangeReason := reason |}.

(** ** Notions the properties are stated with *)

(** The two exceptions of the address parser. *)
Definition prefix_missing : Exn :=
  ValueError "Invalid S3 URI. Must start with 's3://'".

Definition format_invalid : Exn := ValueError "Invalid S3 URI format.".

(** The two tests the loop makes on a status. *)
Definition running (s : string) : bool := str_in s ["RUNNING"; "QUEUED"].
Definition final (s : string) : bool := str_in s ["SUCCEEDED"; "FAILED"; "CANCELLED"].

(** The five statuses of the query service. *)
Definition known (s : string) : bool :=
  str_in s ["QUEUED"; "RUNNING"; "SUCCEEDED"; "FAILED"; "CANCELLED"].

(** The calls of a loop that polls [d] times without a final status and
    then once more. *)
Fixpoint poll_trace (id : string) (d : nat) : list Call :=
  match d with
  | O => [CallGetQueryExecution id]
  | S d' => CallGetQueryExecution id :: CallSleep 2 :: poll_trace id d'
  end.

(** The world after these calls. *)
Fixpoint after_polls (id : string) (d : nat) (w : World) : World :=
  match d with
  | O => record_poll id w
  | S d' => after_polls id d' (record_call (CallSleep 2) (record_poll id w))
  end.

Definition is_poll (c : Call) : bool :=
  match c with
  | CallGetQueryExecution _ => true
  | _ => false
  end.

Definition is_download (c : Call) : bool :=
  match c with
  | CallDownloadFile _ _ _ => true
  | _ => false
  end.

Definition count_polls (cs : list Call) : nat := length (filter is_poll cs).

(** The first index from [from] on, among the next [span] ones, at which
    the answer has a final status; [from + span] when there is none. *)
Fixpoint first_final (answers : nat -> StatusResponse) (from span : nat) : nat :=
  match span with
  | O => from
  | S span' =>
      if final (State (answers from)) then from
      else first_final answers (S from) span'
  end.

(** An execution that reaches the answer [r], with a final status, at
    poll [n]: the session and the Athena client are obtained, the
    submission returns the handle [id], the polls before [n] are
    answered with a running status and poll [n] with [r]. *)
Definition Execution (boto3 : Boto3)
    (profile query database output_location : string)
    (id : string) (n : nat) (r : StatusResponse) : Prop :=
  exists session client,
    boto3 profile = Ok session /\
    client_athena session = Ok client /\
    start_query_execution client query database output_location = Ok id /\
    (forall k, k < n ->
       exists rk, get_query_execution client id k = Ok rk /\
                  running (State rk) = true) /\
    get_query_execution client id n = Ok r /\
    final (State r) = true.

(** The world in which such an execution leaves the program: one
    submission, then the polls. *)
Definition after_execution (query database output_location id : string)
    (n : nat) : World :=
  after_polls id n
    (record_call (CallStartQueryExecution query database output_location) world0).

(** The world after [d] polls that were each followed by a sleep. *)
Fixpoint slept (id : string) (d : nat) (w : World) : World :=
  match d with
  | O => w
  | S d' => slept id d' (record_call (CallSleep 2) (record_poll id w))
  end.

(** A submission that is being polled: the session and the Athena client
    [client] are obtained, the submission returns the handle [id], and
    the first [n] polls are answered with a running status. *)
Definition Submitted (boto3 : Boto3)
    (profile query database output_location : string)
    (client : AthenaClient) (id : string) (n : nat) : Prop :=
  exists session,
    boto3 profile = Ok session /\
    client_athena session = Ok client /\
    start_query_execution client query database output_location = Ok id /\
    (forall k, k < n ->
       exists rk, get_query_execution client id k = Ok rk /\
                  running (State rk) = true).

(** The calls a run of the query runner can have made: none, the
    submission alone, or the submission and polls of one handle with a
    sleep after each poll but the last, or after the last one too. *)
Definition runner_trace (query database output_location : string)
    (cs : list Call) : Prop :=
  cs = [] \/
  cs = [CallStartQueryExecution query database output_location] \/
  exists id n,
    cs = CallStartQueryExecution query database output_location
         :: poll_trace id n \/
    cs = CallStartQueryExecution query database output_location
         :: poll_trace id n ++ [CallSleep 2].

(** A library whose sessions hand out the given clients, or fail to. *)
Definition boto3_of (athena : result AthenaClient) (s3 : result S3Client) : Boto3 :=
  fun _ => Ok {| client_athena := athena; client_s3 := s3 |}.

(** An Athena client that hands out [id], reports [answers] one after
    the other, and then fails with [e] at every poll. *)
Definition failing_athena (id : string) (answers : list StatusResponse)
    (e : Exn) : AthenaClient :=
  {| start_query_execution := fun _ _ _ => Ok id;
     get_query_execution := fun _ k =>
       match nth_error answers k with
       | Some r => Ok r
       | None => Raise e
       end |}.

(** * Properties *)

(** ** The program on examples *)

Example parse_doc_example :
  parse_s3_uri "s3://my-bucket/path/to/file.csv" = Ok ("my-bucket", "path/to/file.csv").
Proof. reflexivity. Qed.

Example parse_no_prefix :
  parse_s3_uri "http://my-bucket/k" = Raise (ValueError "Invalid S3 URI. Must start with 's3://'").
Proof. reflexivity. Qed.

Example parse_no_key :
  parse_s3_uri "s3://my-bucket" = Raise (ValueError "Invalid S3 URI format.").
Proof. reflexivity. Qed.

Example strip_many :
  ensure_no_trailing_slash "s3://foo///" = "s3://foo".
Proof. reflexivity. Qed.

Example end_to_end :
  main 5
    (scripted_boto3 "h1" [answer "RUNNING" None] (answer "SUCCEEDED" None) (Ok tt))
    ∅
    {| argv_query := "SELECT 1"; argv_database := Some "db1";
       argv_output_location := Some "s3://b/out"; argv_profile := Some "p";
       argv_output_file := None |}
    world0
  = Some (Ok tt,
          {| polls := 2;
             calls := [CallStartQueryExecution "SELECT 1" "db1" "s3://b/out";
                       CallGetQueryExecution "h1"; CallSleep 2;
                       CallGetQueryExecution "h1";
                       CallDownloadFile "b" "out/h1.csv" "out.csv"];
             stdout := ["Query succeeded. Result saved in: s3://b/out/h1.csv";
                        "CSV downloaded successfully to: out.csv"] |}).
Proof. reflexivity. Qed.

Example end_to_end_failed :
  main 5
    (scripted_boto3 "h1" [answer "QUEUED" None]
       (answer "FAILED" (Some "SYNTAX_ERROR: line 1")) (Ok tt))
    ∅
    {| argv_query := "SELEC 1"; argv_database := None;
       argv_output_location := Some "s3://b/out/"; argv_profile := None;
       argv_output_file := None |}
    world0
  = Some (Ok tt,
          {| polls := 2;
             calls := [CallStartQueryExecution "SELEC 1" "stb_dev_tedm" "s3://b/out";
                       CallGetQueryExecution "h1"; CallSleep 2;
                       CallGetQueryExecution "h1"];
             stdout := ["Error: Query FAILED: SYNTAX_ERROR: line 1"] |}).
Proof. reflexivity. Qed.

(** ** Facts about the string methods *)

Section StringFacts.

Lemma append_cons a s t : String a s +:+ t = String a (s +:+ t).
Proof. reflexivity. Qed.

Lemma append_nil t : "" +:+ t = t.
Proof. reflexivity. Qed.

Lemma startswith_append p r : Str.startswith (p +:+ r) p = true.
Proof.
  unfold Str.startswith. induction p as [|a p IH].
  - now destruct r.
  - rewrite append_cons. cbn [String.prefix].
    destruct (ascii_dec a a); [exact IH | congruence].
Qed.

Lemma slice_from_append p r : Str.slice_from (String.length p) (p +:+ r) = r.
Proof. induction p as [|a p IH]; [reflexivity | exact IH]. Qed.

Lemma startswith_inv s p :
  Str.startswith s p = true -> s = p +:+ Str.slice_from (String.length p) s.
Proof.
  unfold Str.startswith. revert s.
  induction p as [|a p IH]; intros s H; [reflexivity |].
  destruct s as [|b s]; cbn [String.prefix] in H; [discriminate |].
  destruct (ascii_dec a b) as [->|]; [| discriminate].
  rewrite append_cons. cbn [String.length Str.slice_from].
  f_equal. now apply IH.
Qed.

Lemma startswith_cons a s b p :
  Str.startswith (String a s) (String b p)
  = if ascii_dec b a then Str.startswith s p else false.
Proof. reflexivity. Qed.

Lemma startswith_nil s : Str.startswith s "" = true.
Proof. now destruct s. Qed.

Lemma startswith_common p x q :
  Str.startswith (p +:+ x) (p +:+ q) = Str.startswith x q.
Proof.
  induction p as [|a p IH]; [reflexivity |].
  rewrite !append_cons, startswith_cons.
  destruct (ascii_dec a a); [exact IH | congruence].
Qed.

Variable sep : ascii.

Lemma split1_no_sep s : Str.contains sep s = false -> Str.split1 sep s = [s].
Proof.
  induction s as [|c s IH]; cbn [Str.contains Str.split1]; [reflexivity |].
  destruct (Ascii.eqb c sep); [discriminate |].
  intros H. now rewrite (IH H).
Qed.

Lemma split1_first a b :
  Str.contains sep a = false -> Str.split1 sep (a +:+ String sep b) = [a; b].
Proof.
  induction a as [|c a IH].
  - intros _. rewrite append_nil. cbn [Str.split1].
    now rewrite Ascii.eqb_refl.
  - cbn [Str.contains]. rewrite append_cons. cbn [Str.split1].
    destruct (Ascii.eqb c sep); [discriminate |].
    intros H. now rewrite (IH H).
Qed.

Lemma contains_cut s :
  Str.contains sep s = true ->
  exists a b, s = a +:+ String sep b /\ Str.contains sep a = false.
Proof.
  induction s as [|c s IH]; cbn [Str.contains]; [discriminate |].
  destruct (Ascii.eqb c sep) eqn:E.
  - intros _. apply Ascii.eqb_eq in E as ->. now exists "", s.
  - intros H. destruct (IH H) as (a & b & -> & Ha).
    exists (String c a), b. split; [reflexivity |].
    cbn [Str.contains]. now rewrite E.
Qed.

(** [rstrip] leaves a string that does not end with the character, and
    only removes copies of it. *)
Lemma rstrip_endswith s : Str.endswith (Str.rstrip sep s) sep = false.
Proof.
  induction s as [|a s IH]; [reflexivity |].
  cbn [Str.rstrip]. destruct (Str.rstrip sep s) as [|b r] eqn:E.
  - destruct (Ascii.eqb a sep) eqn:Ea; [reflexivity |].
    cbn [Str.endswith]. exact Ea.
  - exact IH.
Qed.

Lemma rstrip_fixed s : Str.endswith s sep = false -> Str.rstrip sep s = s.
Proof.
  induction s as [|a s IH]; [reflexivity |].
  destruct s as [|b s].
  - cbn. now intros ->.
  - intros H. change (Str.endswith (String b s) sep = false) in H.
    cbn [Str.rstrip]. specialize (IH H). cbn [Str.rstrip] in IH.
    now rewrite IH.
Qed.

Lemma rstrip_idempotent s : Str.rstrip sep (Str.rstrip sep s) = Str.rstrip sep s.
Proof. apply rstrip_fixed, rstrip_endswith. Qed.

Lemma rstrip_removed s : exists n, s = Str.rstrip sep s +:+ Str.repeat sep n.
Proof.
  induction s as [|a s (n & IH)]; [now exists 0 |].
  cbn [Str.rstrip]. destruct (Str.rstrip sep s) as [|b r] eqn:E.
  - destruct (Ascii.eqb a sep) eqn:Ea.
    + apply Ascii.eqb_eq in Ea as ->. exists (S n).
      rewrite append_nil in *. cbn [Str.repeat]. now f_equal.
    + exists n. rewrite append_cons. now f_equal.
  - exists n. rewrite append_cons. now f_equal.
Qed.

End StringFacts.

Lemma endswith_cons a b s c :
  Str.endswith (String a (String b s)) c = Str.endswith (String b s) c.
Proof. reflexivity. Qed.

Lemma rstrip_repeat c n : Str.rstrip c (Str.repeat c n) = "".
Proof.
  induction n as [|n IH]; [reflexivity |].
  cbn [Str.repeat Str.rstrip]. now rewrite IH, Ascii.eqb_refl.
Qed.

Lemma rstrip_append_repeat c t n :
  Str.endswith t c = false -> Str.rstrip c (t +:+ Str.repeat c n) = t.
Proof.
  induction t as [|a t IH]; intros H.
  - rewrite append_nil. apply rstrip_repeat.
  - rewrite append_cons. cbn [Str.rstrip]. destruct t as [|b t].
    + rewrite append_nil, rstrip_repeat. cbn [Str.endswith] in H. now rewrite H.
    + rewrite endswith_cons in H. now rewrite (IH H).
Qed.

(** ** The address parser *)

Lemma parse_prefix_missing s :
  Str.startswith s "s3://" = false -> parse_s3_uri s = Raise prefix_missing.
Proof. unfold parse_s3_uri. now intros ->. Qed.

Lemma parse_no_separator s :
  Str.startswith s "s3://" = true ->
  Str.contains slash (Str.slice_from 5 s) = false ->
  parse_s3_uri s = Raise format_invalid.
Proof.
  unfold parse_s3_uri. intros -> H. cbn [negb].
  now rewrite (split1_no_sep _ _ H).
Qed.

Lemma parse_cut bucket key :
  Str.contains slash bucket = false ->
  parse_s3_uri ("s3://" +:+ bucket +:+ "/" +:+ key) = Ok (bucket, key).
Proof.
  intros H. unfold parse_s3_uri.
  rewrite startswith_append. cbn [negb].
  change 5 with (String.length "s3://"). rewrite slice_from_append.
  change ("/" +:+ key) with (String slash key).
  now rewrite (split1_first _ _ _ H).
Qed.

Lemma parse_separator s :
  Str.startswith s "s3://" = true ->
  Str.contains slash (Str.slice_from 5 s) = true ->
  exists bucket key,
    parse_s3_uri s = Ok (bucket, key) /\
    s = "s3://" +:+ bucket +:+ "/" +:+ key /\
    Str.contains slash bucket = false.
Proof.
  intros Hp Hc. apply startswith_inv in Hp.
  change (String.length "s3://") with 5 in Hp.
  destruct (contains_cut _ _ Hc) as (bucket & key & Hr & Hb).
  exists bucket, key.
  assert (Hs : s = "s3://" +:+ bucket +:+ "/" +:+ key) by (now rewrite Hp at 1; rewrite Hr).
  split; [| now split].
  rewrite Hs. now apply parse_cut.
Qed.

(** C1, as the program has it.  An address that has the prefix and a
    separator after it is accepted, and the two parts returned are the
    text between the prefix and the first separator, and everything after
    that separator: the address is the prefix, the first part, a
    separator and the second part.  Nothing checks that a part is
    non-empty, so each of them may be the empty string. *)
Theorem parse_accepted_parts (s : string) :
  Str.startswith s "s3://" = true ->
  Str.contains slash (Str.slice_from 5 s) = true ->
  exists bucket key,
    parse_s3_uri s = Ok (bucket, key) /\
    s = "s3://" +:+ bucket +:+ "/" +:+ key /\
    Str.contains slash bucket = false.
Proof. apply parse_separator. Qed.

Lemma parse_accepted_parts_witness :
  exists bucket key,
    parse_s3_uri "s3://bucket/" = Ok (bucket, key) /\
    "s3://bucket/" = "s3://" +:+ bucket +:+ "/" +:+ key /\
    Str.contains slash bucket = false.
Proof. apply (parse_accepted_parts "s3://bucket/"); reflexivity. Defined.

(** C1 as stated fails: on ["s3://bucket/"] the parser returns the pair
    with the empty key, and on ["s3:///key"] the pair with the empty
    container; neither input is rejected. *)
Lemma parse_empty_part_accepted :
  parse_s3_uri "s3://bucket/" = Ok ("bucket", "") /\
  parse_s3_uri "s3:///key" = Ok ("", "key") /\
  (forall e, parse_s3_uri "s3://bucket/" <> Raise e) /\
  (forall e, parse_s3_uri "s3:///key" <> Raise e).
Proof. repeat split; discriminate. Qed.

(** C3, as the program has it.  For a non-empty container that holds no
    separator and a non-empty key, parsing the prefix, the container, a
    separator and the key gives back the container and the key, whatever
    separators the key holds. *)
Theorem parse_round_trip (container key : string) :
  container <> "" ->
  key <> "" ->
  Str.contains slash container = false ->
  parse_s3_uri ("s3://" +:+ container +:+ "/" +:+ key) = Ok (container, key).
Proof. intros _ _. apply parse_cut. Qed.

Lemma parse_round_trip_witness :
  parse_s3_uri ("s3://" +:+ "my-bucket" +:+ "/" +:+ "path/to/file.csv")
  = Ok ("my-bucket", "path/to/file.csv").
Proof. apply parse_round_trip; [discriminate | discriminate | reflexivity]. Defined.

(** C3 as stated fails when the container holds a separator: the split
    is at the first separator of the whole remainder. *)
Lemma parse_round_trip_container_with_separator :
  "a/b" <> "" /\ "c" <> "" /\
  parse_s3_uri ("s3://" +:+ "a/b" +:+ "/" +:+ "c") = Ok ("a", "b/c") /\
  parse_s3_uri ("s3://" +:+ "a/b" +:+ "/" +:+ "c") <> Ok ("a/b", "c").
Proof. repeat split; discriminate. Qed.

(** C7.  Stripping the trailing separators twice is stripping them once;
    a string that does not end with a separator is left as it is; and
    ["s3://foo/"] and ["s3://foo"] are normalized to the same string. *)
Theorem ensure_no_trailing_slash_idempotent (s : string) :
  ensure_no_trailing_slash (ensure_no_trailing_slash s) = ensure_no_trailing_slash s /\
  (Str.endswith s slash = false -> ensure_no_trailing_slash s = s) /\
  ensure_no_trailing_slash "s3://foo/" = ensure_no_trailing_slash "s3://foo".
Proof.
  unfold ensure_no_trailing_slash. split; [apply rstrip_idempotent |].
  split; [apply rstrip_fixed | reflexivity].
Qed.

Lemma ensure_no_trailing_slash_idempotent_witness :
  ensure_no_trailing_slash "s3://foo" = "s3://foo".
Proof.
  apply (proj1 (proj2 (ensure_no_trailing_slash_idempotent "s3://foo"))).
  reflexivity.
Defined.

(** C8.  A string without the prefix is rejected with a [ValueError]; so
    is a string with the prefix and no separator after it.  The parser
    has a result on every string, a [ValueError] or a pair, and it
    returns a pair exactly when the prefix is there and a separator
    follows it. *)
Theorem parse_rejects (s : string) :
  (Str.startswith s "s3://" = false ->
   parse_s3_uri s = Raise (ValueError "Invalid S3 URI. Must start with 's3://'")) /\
  (Str.startswith s "s3://" = true ->
   Str.contains slash (Str.slice_from 5 s) = false ->
   parse_s3_uri s = Raise (ValueError "Invalid S3 URI format.")) /\
  ((exists msg, parse_s3_uri s = Raise (ValueError msg)) \/
   (exists bucket key, parse_s3_uri s = Ok (bucket, key))) /\
  ((exists bucket key, parse_s3_uri s = Ok (bucket, key)) <->
   Str.startswith s "s3://" = true /\
   Str.contains slash (Str.slice_from 5 s) = true).
Proof.
  split; [apply parse_prefix_missing |].
  split; [apply parse_no_separator |].
  destruct (Str.startswith s "s3://") eqn:Hp.
  - destruct (Str.contains slash (Str.slice_from 5 s)) eqn:Hc.
    + destruct (parse_separator s Hp Hc) as (b & k & Hbk & _).
      split; [right; eauto |]. split; eauto.
    + rewrite (parse_no_separator s Hp Hc).
      split; [left; eexists; reflexivity |].
      split; [intros (b & k & H); discriminate | intros [_ H]; discriminate].
  - rewrite (parse_prefix_missing s Hp).
    split; [left; eexists; reflexivity |].
    split; [intros (b & k & H); discriminate | intros [H _]; discriminate].
Qed.

Lemma parse_rejects_witness :
  parse_s3_uri "bucket/key" = Raise (ValueError "Invalid S3 URI. Must start with 's3://'") /\
  parse_s3_uri "s3://bucket" = Raise (ValueError "Invalid S3 URI format.").
Proof.
  split.
  - apply (proj1 (parse_rejects "bucket/key")). reflexivity.
  - apply (proj1 (proj2 (parse_rejects "s3://bucket"))); reflexivity.
Defined.

(** C10, as the program has it.  The normalization leaves no trailing
    separator at all, also none of the prefix: the bare prefix becomes
    ["s3:"].  The address derived from it for a handle that does not
    itself begin with a separator does not start with the prefix, and
    the parser rejects it. *)
Theorem bare_prefix_normalized_rejected (id : string) :
  Str.startswith id "/" = false ->
  ensure_no_trailing_slash "s3://" = "s3:" /\
  (forall s, Str.endswith (ensure_no_trailing_slash s) slash = false) /\
  Str.startswith (ensure_no_trailing_slash "s3://" +:+ "/" +:+ id +:+ ".csv") "s3://" = false /\
  parse_s3_uri (ensure_no_trailing_slash "s3://" +:+ "/" +:+ id +:+ ".csv")
  = Raise (ValueError "Invalid S3 URI. Must start with 's3://'").
Proof.
  intros Hid.
  split; [reflexivity |]. split; [intros s; apply rstrip_endswith |].
  assert (H : Str.startswith
                (ensure_no_trailing_slash "s3://" +:+ "/" +:+ id +:+ ".csv")
                "s3://" = false).
  { change (ensure_no_trailing_slash "s3://" +:+ "/" +:+ id +:+ ".csv")
      with ("s3:/" +:+ (id +:+ ".csv")).
    change "s3://" with ("s3:/" +:+ "/"). rewrite startswith_common.
    destruct id as [|c id]; [reflexivity |].
    rewrite append_cons, startswith_cons.
    rewrite startswith_cons, startswith_nil in Hid.
    destruct (ascii_dec "/" c); [discriminate | reflexivity]. }
  split; [exact H | now apply parse_prefix_missing].
Qed.

Lemma bare_prefix_normalized_rejected_witness :
  parse_s3_uri (ensure_no_trailing_slash "s3://" +:+ "/" +:+ "abc-123" +:+ ".csv")
  = Raise (ValueError "Invalid S3 URI. Must start with 's3://'").
Proof.
  apply (bare_prefix_normalized_rejected "abc-123"). reflexivity.
Defined.

(** C10 as stated fails for a handle that begins with a separator: the
    derived address has the prefix again and the parser accepts it. *)
Lemma bare_prefix_normalized_accepted :
  Str.startswith (ensure_no_trailing_slash "s3://" +:+ "/" +:+ "/b/k" +:+ ".csv") "s3://" = true /\
  parse_s3_uri (ensure_no_trailing_slash "s3://" +:+ "/" +:+ "/b/k" +:+ ".csv")
  = Ok ("b", "k.csv").
Proof. split; reflexivity. Qed.

(** ** The polling loop *)

Section PollLoop.

Variable client : AthenaClient.
Variable id : string.

Lemma str_in_inv x xs : str_in x xs = true -> In x xs.
Proof.
  unfold str_in. intros H. apply existsb_exists in H as (y & Hy & E).
  now apply String.eqb_eq in E as ->.
Qed.

Lemma running_not_final s : running s = true -> final s = false.
Proof.
  intros H. apply str_in_inv in H.
  cbn in H. destruct H as [<- | [<- | []]]; reflexivity.
Qed.

Lemma known_not_final s : known s = true -> final s = false -> running s = true.
Proof.
  intros H. apply str_in_inv in H. cbn in H.
  destruct H as [<- | [<- | [<- | [<- | [<- | []]]]]];
    (reflexivity || discriminate).
Qed.

Lemma poll_loop_step fuel st response w :
  poll_loop (S fuel) client id st response w
  = if running st then
      match get_query_execution client id (polls w) with
      | Ok r =>
          if final (State r) then
            Some (Ok (State r, GetResponse r), record_poll id w)
          else
            poll_loop fuel client id (State r) (GetResponse r)
              (record_call (CallSleep 2) (record_poll id w))
      | Raise e => Some (Raise e, record_poll id w)
      end
    else Some (Ok (st, response), w).
Proof.
  cbn [poll_loop]. unfold running, final.
  destruct (str_in st _); [| reflexivity].
  unfold bind, call_get_query_execution.
  destruct (get_query_execution client id (polls w)) as [r | e]; [| reflexivity].
  now destruct (str_in (State r) _).
Qed.

(** From a world in which [p] polls were made: when the next [d]
    answers have a running status and the one after them a final one,
    the loop returns that one, given more than [d] units of fuel. *)
Lemma poll_loop_run d :
  forall fuel st response w r,
    running st = true ->
    (forall k, k < d ->
       exists rk, get_query_execution client id (polls w + k) = Ok rk /\
                  running (State rk) = true) ->
    get_query_execution client id (polls w + d) = Ok r ->
    final (State r) = true ->
    d < fuel ->
    poll_loop fuel client id st response w
    = Some (Ok (State r, GetResponse r), after_polls id d w).
Proof.
  induction d as [|d IH]; intros fuel st response w r Hst Hk Hr Hf Hfuel;
    (destruct fuel as [|fuel]; [lia |]); rewrite poll_loop_step, Hst.
  - rewrite Nat.add_0_r in Hr. now rewrite Hr, Hf.
  - destruct (Hk 0) as (r0 & Hr0 & Hrun0); [lia |].
    rewrite Nat.add_0_r in Hr0. rewrite Hr0, (running_not_final _ Hrun0).
    cbn [after_polls]. apply IH; try assumption; try lia.
    + intros k Hlt. destruct (Hk (S k)) as (rk & Hrk & Hrunk); [lia |].
      exists rk. split; [| assumption].
      cbn [polls record_call record_poll].
      now replace (S (polls w) + k) with (polls w + S k) by lia.
    + cbn [polls record_call record_poll].
      now replace (S (polls w) + d) with (polls w + S d) by lia.
Qed.

Lemma after_polls_polls d : forall w, polls (after_polls id d w) = polls w + S d.
Proof.
  induction d as [|d IH]; intros w; cbn [after_polls].
  - cbn. lia.
  - rewrite IH. cbn. lia.
Qed.

Lemma after_polls_calls d :
  forall w, calls (after_polls id d w) = calls w ++ poll_trace id d.
Proof.
  induction d as [|d IH]; intros w; cbn [after_polls poll_trace]; [reflexivity |].
  rewrite IH. cbn [calls record_call record_poll].
  now rewrite <- !app_assoc.
Qed.

Lemma after_polls_stdout d : forall w, stdout (after_polls id d w) = stdout w.
Proof.
  induction d as [|d IH]; intros w; cbn [after_polls]; [reflexivity |].
  now rewrite IH.
Qed.

Lemma poll_trace_count d : count_polls (poll_trace id d) = S d.
Proof.
  unfold count_polls. induction d as [|d IH]; [reflexivity |].
  cbn [poll_trace]. rewrite !filter_cons. cbn [is_poll].
  rewrite decide_True by exact I. rewrite decide_False by (intros []).
  cbn [length]. now f_equal.
Qed.

Lemma poll_trace_no_download d : existsb is_download (poll_trace id d) = false.
Proof. induction d as [|d IH]; [reflexivity | exact IH]. Qed.

End PollLoop.

Section FirstFinal.

Variable answers : nat -> StatusResponse.

Lemma first_final_spec span :
  forall from,
    final (State (answers (from + span))) = true ->
    let m := first_final answers from span in
    from <= m <= from + span /\
    final (State (answers m)) = true /\
    (forall k, from <= k < m -> final (State (answers k)) = false).
Proof.
  induction span as [|span IH]; intros from Hf; cbn [first_final]; cbv zeta.
  - rewrite Nat.add_0_r in Hf.
    split; [lia |]. split; [assumption |]. intros k Hk. lia.
  - destruct (final (State (answers from))) eqn:E.
    + split; [lia |]. split; [assumption |]. intros k Hk. lia.
    + rewrite <- Nat.add_succ_comm in Hf.
      destruct (IH (S from) Hf) as (Hle & Hfin & Hbefore).
      split; [lia |]. split; [assumption |].
      intros k Hk. destruct (Nat.eq_dec k from) as [-> |]; [assumption |].
      apply Hbefore. lia.
Qed.

End FirstFinal.

(** C6.  Let the service answer the polls with [answers 0], [answers 1],
    ..., each with one of the five statuses, and let some answer have a
    final status.  Then, with [m] the index of the first such answer, the
    loop started as the program starts it returns the answer [m] as soon
    as it is given more than [m] units of fuel; every answer before it
    has a running status, on which the loop goes on; the loop has made
    exactly [m + 1] polls, which is at least one, and [m] sleeps between
    them. *)
Theorem poll_loop_stops_at_first_final
    (client : AthenaClient) (id : string) (answers : nat -> StatusResponse)
    (n : nat) (w : World) :
  (forall k, get_query_execution client id k = Ok (answers k)) ->
  (forall k, known (State (answers k)) = true) ->
  final (State (answers n)) = true ->
  polls w = 0 ->
  let m := first_final answers 0 n in
  m <= n /\
  final (State (answers m)) = true /\
  (forall k, k < m ->
     running (State (answers k)) = true /\ final (State (answers k)) = false) /\
  forall fuel, m < fuel ->
    exists w',
      poll_loop fuel client id "RUNNING" (StartResponse id) w
      = Some (Ok (State (answers m), GetResponse (answers m)), w') /\
      polls w' = S m /\
      calls w' = calls w ++ poll_trace id m /\
      count_polls (poll_trace id m) = S m /\
      1 <= count_polls (poll_trace id m).
Proof.
  intros Hget Hknown Hfinal Hw m.
  destruct (first_final_spec answers n 0 Hfinal) as (Hle & Hfin & Hbefore).
  fold m in Hle, Hfin, Hbefore.
  assert (Hrun : forall k, k < m ->
            running (State (answers k)) = true /\ final (State (answers k)) = false).
  { intros k Hk. assert (Hnf : final (State (answers k)) = false) by (apply Hbefore; lia).
    split; [| assumption]. now apply known_not_final. }
  split; [lia |]. split; [assumption |]. split; [assumption |].
  intros fuel Hfuel. exists (after_polls id m w).
  split.
  - apply poll_loop_run; try assumption; try reflexivity.
    + intros k Hk. exists (answers k). rewrite Hw. split; [apply Hget | now apply Hrun].
    + rewrite Hw. apply Hget.
  - rewrite after_polls_polls, after_polls_calls, poll_trace_count, Hw.
    repeat split; lia.
Qed.

Lemma poll_loop_stops_at_first_final_witness :
  exists w',
    poll_loop 3 (scripted_athena "h1" [answer "QUEUED" None; answer "RUNNING" None]
                   (answer "SUCCEEDED" None))
      "h1" "RUNNING" (StartResponse "h1") world0
    = Some (Ok ("SUCCEEDED", GetResponse (answer "SUCCEEDED" None)), w') /\
    polls w' = 3 /\
    calls w' = calls world0 ++ poll_trace "h1" 2 /\
    count_polls (poll_trace "h1" 2) = 3 /\
    1 <= count_polls (poll_trace "h1" 2).
Proof.
  refine (proj2 (proj2 (proj2
    (poll_loop_stops_at_first_final
       (scripted_athena "h1" [answer "QUEUED" None; answer "RUNNING" None]
          (answer "SUCCEEDED" None))
       "h1"
       (fun k => nth k [answer "QUEUED" None; answer "RUNNING" None]
                   (answer "SUCCEEDED" None))
       5 world0 _ _ _ _))) 3 _).
  - intros k. reflexivity.
  - intros [|[|[|k]]]; reflexivity.
  - reflexivity.
  - reflexivity.
  - vm_compute. lia.
Defined.

(** ** Runs of the query runner *)

Lemma after_execution_calls query database output_location id n :
  calls (after_execution query database output_location id n)
  = CallStartQueryExecution query database output_location :: poll_trace id n.
Proof. unfold after_execution. now rewrite after_polls_calls. Qed.

Lemma after_execution_no_download query database output_location id n :
  existsb is_download (calls (after_execution query database output_location id n))
  = false.
Proof.
  rewrite after_execution_calls. cbn [existsb is_download orb].
  apply poll_trace_no_download.
Qed.

(** The scripted collaborators give such an execution. *)
Lemma scripted_execution id answers last download profile query database output_location :
  forallb (fun r => running (State r)) answers = true ->
  final (State last) = true ->
  Execution (scripted_boto3 id answers last download)
    profile query database output_location id (length answers) last.
Proof.
  intros Hrun Hfin. eexists. eexists.
  split; [reflexivity |]. split; [reflexivity |]. split; [reflexivity |].
  split; [| split; [| exact Hfin]].
  - intros k Hk. exists (nth k answers last). split; [reflexivity |].
    rewrite forallb_forall in Hrun. apply Hrun. now apply nth_In.
  - cbn. now rewrite nth_overflow by lia.
Qed.

(** What [execute_athena_query] does on such an execution. *)
Lemma execute_run fuel boto3 profile query database output_location id n r :
  Execution boto3 profile query database output_location id n r ->
  n < fuel ->
  execute_athena_query fuel boto3 query database output_location profile world0
  = let w := after_execution query database output_location id n in
    if String.eqb (State r) "SUCCEEDED" then
      Some (Ok (output_location +:+ "/" +:+ id +:+ ".csv"), w)
    else
      match StateChangeReason r with
      | Some reason =>
          Some (Raise (Exception ("Query " +:+ State r +:+ ": " +:+ reason)), w)
      | None => Some (Raise (KeyError "StateChangeReason"), w)
      end.
Proof.
  intros (session & client & Hs & Hc & Hstart & Hk & Hr & Hf) Hfuel.
  unfold execute_athena_query, bind, lift, call_start_query_execution.
  rewrite Hs, Hc, Hstart.
  rewrite (poll_loop_run client id n fuel "RUNNING" _ _ r); try assumption;
    try reflexivity.
  cbv zeta. fold (after_execution query database output_location id n).
  destruct (String.eqb (State r) "SUCCEEDED"); [reflexivity |].
  unfold state_change_reason.
  now destruct (StateChangeReason r).
Qed.

(** [main] after an error of the query runner: the error is printed, and
    nothing else is done. *)
Lemma main_body_execute_raises fuel boto3 args e w1 :
  is_Exception e = true ->
  execute_athena_query fuel boto3 (query args) (database args)
    (ensure_no_trailing_slash (output_location args)) (profile args) world0
  = Some (Raise e, w1) ->
  main_body fuel boto3 args world0
  = Some (Ok tt, record_print ("Error: " +:+ str e) w1).
Proof.
  intros He Hx. unfold main_body, try_except, bind. now rewrite Hx, He.
Qed.

(** [main] after an error of the artifact fetcher. *)
Lemma main_body_download_raises fuel boto3 args s3_uri e w1 w2 :
  is_Exception e = true ->
  execute_athena_query fuel boto3 (query args) (database args)
    (ensure_no_trailing_slash (output_location args)) (profile args) world0
  = Some (Ok s3_uri, w1) ->
  download_csv_from_s3 boto3 s3_uri (profile args) (output_file args)
    (record_print ("Query succeeded. Result saved in: " +:+ s3_uri) w1)
  = Some (Raise e, w2) ->
  main_body fuel boto3 args world0
  = Some (Ok tt, record_print ("Error: " +:+ str e) w2).
Proof.
  intros He Hx Hd. unfold main_body, try_except, bind, print.
  now rewrite Hx, Hd, He.
Qed.

(** The artifact fetcher always comes to an end. *)
Lemma download_total boto3 s3_uri profile output_file w :
  exists r w', download_csv_from_s3 boto3 s3_uri profile output_file w = Some (r, w').
Proof.
  unfold download_csv_from_s3, bind, lift, call_download_file.
  destruct (boto3 profile) as [session | e]; [| eauto].
  destruct (client_s3 session) as [s3 | e]; [| eauto].
  destruct (parse_s3_uri s3_uri) as [[bucket key] | e]; eauto.
Qed.

Lemma download_stdout boto3 s3_uri profile output_file w r w' :
  download_csv_from_s3 boto3 s3_uri profile output_file w = Some (r, w') ->
  stdout w' = stdout w.
Proof.
  unfold download_csv_from_s3, bind, lift, call_download_file.
  destruct (boto3 profile) as [session | e]; [| now intros [= <- <-]].
  destruct (client_s3 session) as [s3 | e]; [| now intros [= <- <-]].
  destruct (parse_s3_uri s3_uri) as [[bucket key] | e]; now intros [= <- <-].
Qed.

(** [main] after the query runner has returned an address: the address
    is printed, whatever the artifact fetcher does next. *)
Lemma main_body_execute_returns fuel boto3 args s3_uri w1 :
  execute_athena_query fuel boto3 (query args) (database args)
    (ensure_no_trailing_slash (output_location args)) (profile args) world0
  = Some (Ok s3_uri, w1) ->
  exists res w' rest,
    main_body fuel boto3 args world0 = Some (res, w') /\
    stdout w'
    = stdout w1 ++ ("Query succeeded. Result saved in: " +:+ s3_uri) :: rest.
Proof.
  intros Hx. unfold main_body, try_except, bind, print. rewrite Hx.
  destruct (download_total boto3 s3_uri (profile args) (output_file args)
              (record_print ("Query succeeded. Result saved in: " +:+ s3_uri) w1))
    as (rd & wd & Hd).
  rewrite Hd. apply download_stdout in Hd. cbn [stdout record_print] in Hd.
  destruct rd as [[] | e]; [| destruct (is_Exception e)];
    do 3 eexists; (split; [reflexivity |]); cbn [stdout record_print];
    rewrite Hd, <- ?app_assoc; reflexivity.
Qed.

(** ** The claims on the query runner and on [main] *)

(** X16.  Take an execution that [main] starts and whose final status
    is [FAILED] or [CANCELLED].  When the service has attached a reason
    to that status, [execute_athena_query] raises the exception whose
    message holds the status and the reason.  With or without a reason
    it raises, [main] prints the error and returns, and the calls made
    by the whole run are the submission and the polls: the download is
    never called. *)
Theorem failed_or_cancelled_aborts
    (fuel : nat) (boto3 : Boto3) (environ : gmap string string) (argv : Argv)
    (id : string) (n : nat) (r : StatusResponse) :
  let args := parse_args environ argv in
  let location := ensure_no_trailing_slash (output_location args) in
  Execution boto3 (profile args) (query args) (database args) location id n r ->
  State r = "FAILED" \/ State r = "CANCELLED" ->
  n < fuel ->
  let w := after_execution (query args) (database args) location id n in
  (forall reason, StateChangeReason r = Some reason ->
     execute_athena_query fuel boto3 (query args) (database args) location
       (profile args) world0
     = Some (Raise (Exception ("Query " +:+ State r +:+ ": " +:+ reason)), w)) /\
  (exists e,
     execute_athena_query fuel boto3 (query args) (database args) location
       (profile args) world0
     = Some (Raise e, w) /\
     main fuel boto3 environ argv world0
     = Some (Ok tt, record_print ("Error: " +:+ str e) w)) /\
  (forall res w', main fuel boto3 environ argv world0 = Some (res, w') ->
     calls w' = CallStartQueryExecution (query args) (database args) location
                :: poll_trace id n /\
     existsb is_download (calls w') = false).
Proof.
  intros args location Hex Hst Hfuel w.
  pose proof (execute_run _ _ _ _ _ _ _ _ _ Hex Hfuel) as Hrun.
  cbv zeta in Hrun. fold w in Hrun.
  assert (Hne : String.eqb (State r) "SUCCEEDED" = false)
    by (destruct Hst as [-> | ->]; reflexivity).
  rewrite Hne in Hrun.
  assert (Hraise : exists e,
            is_Exception e = true /\
            execute_athena_query fuel boto3 (query args) (database args) location
              (profile args) world0 = Some (Raise e, w)).
  { destruct (StateChangeReason r) as [reason |]; eexists; (split; [| exact Hrun]);
      reflexivity. }
  destruct Hraise as (e & He & Hx).
  assert (Hmain : main fuel boto3 environ argv world0
                  = Some (Ok tt, record_print ("Error: " +:+ str e) w))
    by (now apply main_body_execute_raises).
  split; [| split].
  - intros reason Hreason. now rewrite Hreason in Hrun.
  - now exists e.
  - intros res w' Hres. rewrite Hmain in Hres. injection Hres as _ <-.
    cbn [calls record_print]. unfold w.
    split; [apply after_execution_calls | apply after_execution_no_download].
Qed.

Lemma failed_or_cancelled_aborts_witness :
  execute_athena_query 2
    (scripted_boto3 "h1" [answer "RUNNING" None]
       (answer "CANCELLED" (Some "Query cancelled by user")) (Ok tt))
    "SELECT 1" "db1" (ensure_no_trailing_slash "s3://b/out/") "p" world0
  = Some (Raise (Exception ("Query " +:+ "CANCELLED" +:+ ": "
                            +:+ "Query cancelled by user")),
          after_execution "SELECT 1" "db1"
            (ensure_no_trailing_slash "s3://b/out/") "h1" 1).
Proof.
  refine (proj1 (failed_or_cancelled_aborts 2
            (scripted_boto3 "h1" [answer "RUNNING" None]
               (answer "CANCELLED" (Some "Query cancelled by user")) (Ok tt))
            ∅
            {| argv_query := "SELECT 1"; argv_database := Some "db1";
               argv_output_location := Some "s3://b/out/"; argv_profile := Some "p";
               argv_output_file := None |}
            "h1" 1 (answer "CANCELLED" (Some "Query cancelled by user")) _ _ _)
            "Query cancelled by user" _).
  - apply (scripted_execution "h1" [answer "RUNNING" None]); reflexivity.
  - right. reflexivity.
  - lia.
  - reflexivity.
Defined.

(** C2, where the program departs from it.  The service answers the
    first poll with the status [FAILED] and no reason.  The subscript
    that reads the reason raises the [KeyError] of the missing key, so
    the runner raises that and not the exception that holds the status;
    [main] prints the name of the key as the error.  The download is not
    called. *)
Theorem failed_without_reason_loses_status :
  execute_athena_query 1
    (scripted_boto3 "h1" [] (answer "FAILED" None) (Ok tt))
    "SELECT 1" "db1" "s3://b/out" "p" world0
  = Some (Raise (KeyError "StateChangeReason"),
          after_execution "SELECT 1" "db1" "s3://b/out" "h1" 0) /\
  (forall msg w,
     execute_athena_query 1
       (scripted_boto3 "h1" [] (answer "FAILED" None) (Ok tt))
       "SELECT 1" "db1" "s3://b/out" "p" world0
     <> Some (Raise (Exception msg), w)) /\
  main 1
    (scripted_boto3 "h1" [] (answer "FAILED" None) (Ok tt))
    ∅
    {| argv_query := "SELECT 1"; argv_database := Some "db1";
       argv_output_location := Some "s3://b/out"; argv_profile := Some "p";
       argv_output_file := None |}
    world0
  = Some (Ok tt,
          {| polls := 1;
             calls := [CallStartQueryExecution "SELECT 1" "db1" "s3://b/out";
                       CallGetQueryExecution "h1"];
             stdout := ["Error: 'StateChangeReason'"] |}).
Proof.
  split; [reflexivity |]. split; [| reflexivity].
  intros msg w H. vm_compute in H. discriminate.
Qed.

(** C4.  Take a command line whose output location is a string [t] that
    does not end with a separator, followed by any number of separators
    (every string is of this form), and an execution of the query
    submitted for [t] whose final status is [SUCCEEDED].  The runner, as
    [main] calls it, makes the submission for [t] and returns [t]
    followed by one separator, the handle and [.csv], and [main] prints
    that address: the trailing separators of the command line are not in
    it.  For the location ["s3://bucket/path"] and the handle
    ["abc-123"] the address is ["s3://bucket/path/abc-123.csv"], and so
    it is for the location ["s3://bucket/path//"]. *)
Theorem succeeded_result_address
    (fuel : nat) (boto3 : Boto3) (environ : gmap string string) (argv : Argv)
    (t : string) (k : nat) (id : string) (n : nat) (r : StatusResponse) :
  let args := parse_args environ argv in
  output_location args = t +:+ Str.repeat slash k ->
  Str.endswith t slash = false ->
  Execution boto3 (profile args) (query args) (database args) t id n r ->
  State r = "SUCCEEDED" ->
  n < fuel ->
  execute_athena_query fuel boto3 (query args) (database args)
    (ensure_no_trailing_slash (output_location args)) (profile args) world0
  = Some (Ok (t +:+ "/" +:+ id +:+ ".csv"),
          after_execution (query args) (database args) t id n) /\
  (exists res w',
     main fuel boto3 environ argv world0 = Some (res, w') /\
     head (stdout w')
     = Some ("Query succeeded. Result saved in: "
             +:+ (t +:+ "/" +:+ id +:+ ".csv"))) /\
  execute_athena_query 1
    (scripted_boto3 "abc-123" [] (answer "SUCCEEDED" None) (Ok tt))
    "SELECT 1" "db1" "s3://bucket/path" "p" world0
  = Some (Ok "s3://bucket/path/abc-123.csv",
          after_execution "SELECT 1" "db1" "s3://bucket/path" "abc-123" 0) /\
  main 1
    (scripted_boto3 "abc-123" [] (answer "SUCCEEDED" None) (Ok tt))
    ∅
    {| argv_query := "SELECT 1"; argv_database := Some "db1";
       argv_output_location := Some "s3://bucket/path//";
       argv_profile := Some "p"; argv_output_file := None |}
    world0
  = Some (Ok tt,
          {| polls := 1;
             calls := [CallStartQueryExecution "SELECT 1" "db1" "s3://bucket/path";
                       CallGetQueryExecution "abc-123";
                       CallDownloadFile "bucket" "path/abc-123.csv" "out.csv"];
             stdout := ["Query succeeded. Result saved in: s3://bucket/path/abc-123.csv";
                        "CSV downloaded successfully to: out.csv"] |}).
Proof.
  intros args Hloc Ht Hex Hst Hfuel.
  assert (E : ensure_no_trailing_slash (output_location args) = t).
  { rewrite Hloc. unfold ensure_no_trailing_slash.
    now apply rstrip_append_repeat. }
  pose proof (execute_run _ _ _ _ _ _ _ _ _ Hex Hfuel) as Hrun.
  cbv zeta in Hrun. rewrite Hst in Hrun.
  change (String.eqb "SUCCEEDED" "SUCCEEDED") with true in Hrun. cbv iota in Hrun.
  rewrite <- E in Hrun at 1.
  split; [exact Hrun |]. split; [| split; reflexivity].
  destruct (main_body_execute_returns _ _ _ _ _ Hrun) as (res & w' & rest & Hm & Hout).
  exists res, w'. split; [exact Hm |].
  rewrite Hout. unfold after_execution. now rewrite after_polls_stdout.
Qed.

Lemma succeeded_result_address_witness :
  execute_athena_query 3
    (scripted_boto3 "abc-123" [answer "QUEUED" None; answer "RUNNING" None]
       (answer "SUCCEEDED" None) (Ok tt))
    "SELECT 1" "db1" (ensure_no_trailing_slash "s3://bucket/path//") "p" world0
  = Some (Ok ("s3://bucket/path" +:+ "/" +:+ "abc-123" +:+ ".csv"),
          after_execution "SELECT 1" "db1" "s3://bucket/path" "abc-123" 2).
Proof.
  refine (proj1 (succeeded_result_address 3
            (scripted_boto3 "abc-123" [answer "QUEUED" None; answer "RUNNING" None]
               (answer "SUCCEEDED" None) (Ok tt))
            ∅
            {| argv_query := "SELECT 1"; argv_database := Some "db1";
               argv_output_location := Some "s3://bucket/path//";
               argv_profile := Some "p"; argv_output_file := None |}
            "s3://bucket/path" 2 "abc-123" 2 (answer "SUCCEEDED" None) _ _ _ _ _)).
  - reflexivity.
  - reflexivity.
  - apply (scripted_execution "abc-123"
             [answer "QUEUED" None; answer "RUNNING" None]); reflexivity.
  - reflexivity.
  - lia.
Defined.

(** C5.  Whatever instance of [Exception] the query runner or the
    artifact fetcher raises, [main] catches it, prints [Error: ] followed
    by its message as the last line of the output, and returns, so that
    the process exits with status 0.  A run of [main] that comes to an
    end never ends with an instance of [Exception]. *)
Theorem main_catches_every_error
    (fuel : nat) (boto3 : Boto3) (environ : gmap string string) (argv : Argv)
    (e : Exn) :
  is_Exception e = true ->
  let args := parse_args environ argv in
  (forall w1,
     execute_athena_query fuel boto3 (query args) (database args)
       (ensure_no_trailing_slash (output_location args)) (profile args) world0
     = Some (Raise e, w1) ->
     main fuel boto3 environ argv world0
     = Some (Ok tt, record_print ("Error: " +:+ str e) w1)) /\
  (forall s3_uri w1 w2,
     execute_athena_query fuel boto3 (query args) (database args)
       (ensure_no_trailing_slash (output_location args)) (profile args) world0
     = Some (Ok s3_uri, w1) ->
     download_csv_from_s3 boto3 s3_uri (profile args) (output_file args)
       (record_print ("Query succeeded. Result saved in: " +:+ s3_uri) w1)
     = Some (Raise e, w2) ->
     main fuel boto3 environ argv world0
     = Some (Ok tt, record_print ("Error: " +:+ str e) w2)) /\
  (forall res w,
     main fuel boto3 environ argv world0 = Some (res, w) ->
     (res = Ok tt /\ exit_status res = 0) \/
     (exists e', res = Raise e' /\ is_Exception e' = false)).
Proof.
  intros He args. split; [| split].
  - intros w1 Hx. now apply main_body_execute_raises.
  - intros s3_uri w1 w2 Hx Hd. now apply main_body_download_raises with s3_uri w1.
  - intros res w. unfold main, main_body, try_except.
    match goal with |- context [match ?m world0 with _ => _ end] => destruct (m world0) as [[[[] | e'] w']|] end;
      [ intros [= <- <-]; now left
      | destruct (is_Exception e') eqn:He';
        [ unfold print; intros [= <- <-]; now left
        | intros [= <- <-]; right; now exists e' ]
      | discriminate ].
Qed.

Lemma main_catches_every_error_witness :
  main 1
    (scripted_boto3 "h1" [] (answer "FAILED" (Some "SYNTAX_ERROR: line 1")) (Ok tt))
    ∅
    {| argv_query := "SELEC 1"; argv_database := Some "db1";
       argv_output_location := Some "s3://b/out"; argv_profile := Some "p";
       argv_output_file := None |}
    world0
  = Some (Ok tt,
          record_print ("Error: " +:+ str (Exception "Query FAILED: SYNTAX_ERROR: line 1"))
            (after_execution "SELEC 1" "db1" "s3://b/out" "h1" 0)).
Proof.
  refine (proj1 (main_catches_every_error 1
            (scripted_boto3 "h1" [] (answer "FAILED" (Some "SYNTAX_ERROR: line 1")) (Ok tt))
            ∅
            {| argv_query := "SELEC 1"; argv_database := Some "db1";
               argv_output_location := Some "s3://b/out"; argv_profile := Some "p";
               argv_output_file := None |}
            (Exception "Query FAILED: SYNTAX_ERROR: line 1") _) _ _).
  - reflexivity.
  - reflexivity.
Defined.

(** The errors of the other components are reported in the same way:
    an address the parser rejects, and a failed transfer. *)
Example malformed_address_reported :
  main 1
    (scripted_boto3 "h1" [] (answer "SUCCEEDED" None) (Ok tt))
    ∅
    {| argv_query := "SELECT 1"; argv_database := None;
       argv_output_location := Some "s3://"; argv_profile := None;
       argv_output_file := None |}
    world0
  = Some (Ok tt,
          {| polls := 1;
             calls := [CallStartQueryExecution "SELECT 1" "stb_dev_tedm" "s3:";
                       CallGetQueryExecution "h1"];
             stdout := ["Query succeeded. Result saved in: s3:/h1.csv";
                        "Error: Invalid S3 URI. Must start with 's3://'"] |}).
Proof. reflexivity. Qed.

Example transfer_error_reported :
  main 1
    (scripted_boto3 "h1" [] (answer "SUCCEEDED" None)
       (Raise (ClientError "An error occurred (404): Not Found")))
    ∅
    {| argv_query := "SELECT 1"; argv_database := None;
       argv_output_location := None; argv_profile := None;
       argv_output_file := None |}
    world0
  = Some (Ok tt,
          {| polls := 1;
             calls := [CallStartQueryExecution "SELECT 1" "stb_dev_tedm" "s3://foo";
                       CallGetQueryExecution "h1";
                       CallDownloadFile "foo" "h1.csv" "out.csv"];
             stdout := ["Query succeeded. Result saved in: s3://foo/h1.csv";
                        "Error: An error occurred (404): Not Found"] |}).
Proof. reflexivity. Qed.

(** A final status without a reason: the subscript raises, and that is
    the error [main] reports. *)
Example missing_reason_reported :
  main 1
    (scripted_boto3 "h1" [] (answer "FAILED" None) (Ok tt))
    ∅
    {| argv_query := "SELECT 1"; argv_database := None;
       argv_output_location := None; argv_profile := None;
       argv_output_file := None |}
    world0
  = Some (Ok tt,
          {| polls := 1;
             calls := [CallStartQueryExecution "SELECT 1" "stb_dev_tedm" "s3://foo";
                       CallGetQueryExecution "h1"];
             stdout := ["Error: 'StateChangeReason'"] |}).
Proof. reflexivity. Qed.

(** ** The default profile *)

(** C9.  When [AWS_PROFILE] is not in the environment the default
    profile is the fixed name; when it is, the default profile is its
    value.  The default is what [--profile] takes when the option is not
    given. *)
Theorem default_profile_resolution (environ : gmap string string) :
  (environ !! "AWS_PROFILE" = None -> DEFAULT_PROFILE environ = "aberezin") /\
  (forall v, environ !! "AWS_PROFILE" = Some v -> DEFAULT_PROFILE environ = v) /\
  (forall argv, argv_profile argv = None ->
     profile (parse_args environ argv) = DEFAULT_PROFILE environ) /\
  (forall argv p, argv_profile argv = Some p ->
     profile (parse_args environ argv) = p).
Proof.
  unfold DEFAULT_PROFILE. split; [now intros -> |]. split; [now intros v -> |].
  split; [intros argv H | intros argv p H]; cbn [profile parse_args]; now rewrite H.
Qed.

Lemma default_profile_resolution_witness :
  DEFAULT_PROFILE ∅ = "aberezin" /\
  DEFAULT_PROFILE {["AWS_PROFILE" := "prod"]} = "prod".
Proof.
  split.
  - apply (proj1 (default_profile_resolution ∅)). reflexivity.
  - apply (proj1 (proj2 (default_profile_resolution {["AWS_PROFILE" := "prod"]}))).
    reflexivity.
Defined.

(** * Further properties of the program *)

(** ** Addresses *)

Lemma append_assoc_str a b c : (a +:+ b) +:+ c = a +:+ (b +:+ c).
Proof.
  induction a as [|x a IH]; [reflexivity |].
  rewrite !append_cons. now f_equal.
Qed.

Lemma append_nil_r a : a +:+ "" = a.
Proof. induction a as [|x a IH]; [reflexivity |]. rewrite append_cons. now f_equal. Qed.

Lemma endswith_append p b c :
  b <> "" -> Str.endswith (p +:+ b) c = Str.endswith b c.
Proof.
  intros Hb. induction p as [|x p IH]; [reflexivity |].
  rewrite append_cons. destruct (p +:+ b) as [|y q] eqn:E.
  - destruct p; [rewrite append_nil in E; congruence | discriminate].
  - now rewrite endswith_cons.
Qed.

Lemma contains_endswith c s : Str.contains c s = false -> Str.endswith s c = false.
Proof.
  induction s as [|a s IH]; [reflexivity |].
  cbn [Str.contains]. destruct (Ascii.eqb a c) eqn:E; [discriminate |].
  intros H. destruct s as [|b s]; [exact E |].
  rewrite endswith_cons. now apply IH.
Qed.

Lemma parse_ok_inv s bucket key :
  parse_s3_uri s = Ok (bucket, key) ->
  s = "s3://" +:+ bucket +:+ "/" +:+ key /\ Str.contains slash bucket = false.
Proof.
  intros H.
  destruct (Str.startswith s "s3://") eqn:Hp;
    [| rewrite (parse_prefix_missing s Hp) in H; discriminate].
  destruct (Str.contains slash (Str.slice_from 5 s)) eqn:Hc;
    [| rewrite (parse_no_separator s Hp Hc) in H; discriminate].
  destruct (parse_separator s Hp Hc) as (b & k & Hbk & Hs & Hb).
  rewrite Hbk in H. injection H as -> ->. now split.
Qed.

Lemma parse_raise_is_exception s e : parse_s3_uri s = Raise e -> is_Exception e = true.
Proof.
  destruct (Str.startswith s "s3://") eqn:Hp;
    [| rewrite (parse_prefix_missing s Hp); now intros [= <-]].
  destruct (Str.contains slash (Str.slice_from 5 s)) eqn:Hc;
    [| rewrite (parse_no_separator s Hp Hc); now intros [= <-]].
  destruct (parse_separator s Hp Hc) as (b & k & -> & _). discriminate.
Qed.

(** X1.  The parser returns the pair [(bucket, key)] exactly on the
    address made of the prefix, [bucket], a separator and [key], with
    [bucket] free of separators: what it accepts determines the address. *)
Theorem parse_s3_uri_ok_iff (s bucket key : string) :
  parse_s3_uri s = Ok (bucket, key) <->
  s = "s3://" +:+ bucket +:+ "/" +:+ key /\ Str.contains slash bucket = false.
Proof.
  split; [apply parse_ok_inv |].
  intros [-> Hb]. now apply parse_cut.
Qed.

(** X2.  The normalization removes separators at the end and nothing
    else: every string is its normal form followed by separators, and a
    string that does not end with a separator, followed by any number of
    separators, is normalized to that string. *)
Theorem ensure_no_trailing_slash_spec (s : string) :
  (exists n, s = ensure_no_trailing_slash s +:+ Str.repeat slash n) /\
  (forall t n,
     Str.endswith t slash = false ->
     s = t +:+ Str.repeat slash n ->
     ensure_no_trailing_slash s = t).
Proof.
  unfold ensure_no_trailing_slash. split; [apply rstrip_removed |].
  intros t n Ht ->. now apply rstrip_append_repeat.
Qed.

Lemma ensure_no_trailing_slash_spec_witness :
  ensure_no_trailing_slash "s3://b/out//" = "s3://b/out".
Proof.
  apply (proj2 (ensure_no_trailing_slash_spec "s3://b/out//") "s3://b/out" 2);
    reflexivity.
Defined.

(** X3.  An output location that is the prefix and a non-empty bucket
    name, with any number of trailing separators, is normalized to the
    prefix and the bucket; the address derived from it for any handle is
    parsed to the bucket and the key [handle.csv]. *)
Theorem bucket_location_address (bucket id : string) (n : nat) :
  bucket <> "" ->
  Str.contains slash bucket = false ->
  ensure_no_trailing_slash ("s3://" +:+ bucket +:+ Str.repeat slash n)
  = "s3://" +:+ bucket /\
  parse_s3_uri
    (ensure_no_trailing_slash ("s3://" +:+ bucket +:+ Str.repeat slash n)
     +:+ "/" +:+ id +:+ ".csv")
  = Ok (bucket, id +:+ ".csv").
Proof.
  intros Hne Hb.
  assert (E : ensure_no_trailing_slash ("s3://" +:+ bucket +:+ Str.repeat slash n)
              = "s3://" +:+ bucket).
  { unfold ensure_no_trailing_slash. rewrite <- append_assoc_str.
    apply rstrip_append_repeat.
    rewrite endswith_append by assumption. now apply contains_endswith. }
  split; [exact E |].
  rewrite E, append_assoc_str. now apply parse_cut.
Qed.

Lemma bucket_location_address_witness :
  parse_s3_uri
    (ensure_no_trailing_slash ("s3://" +:+ "foo" +:+ Str.repeat slash 2)
     +:+ "/" +:+ "abc-123" +:+ ".csv")
  = Ok ("foo", "abc-123" +:+ ".csv").
Proof.
  apply (bucket_location_address "foo" "abc-123" 2); [discriminate | reflexivity].
Defined.

(** X4.  An output location that is the prefix, a bucket name, a
    separator and a non-empty path that does not end with a separator,
    with any number of trailing separators, is normalized by dropping
    these; the address derived from it is parsed to the bucket and the
    key [path/handle.csv], with one separator between path and handle. *)
Theorem path_location_address (bucket path id : string) (n : nat) :
  Str.contains slash bucket = false ->
  path <> "" ->
  Str.endswith path slash = false ->
  ensure_no_trailing_slash
    ("s3://" +:+ bucket +:+ "/" +:+ path +:+ Str.repeat slash n)
  = "s3://" +:+ bucket +:+ "/" +:+ path /\
  parse_s3_uri
    (ensure_no_trailing_slash
       ("s3://" +:+ bucket +:+ "/" +:+ path +:+ Str.repeat slash n)
     +:+ "/" +:+ id +:+ ".csv")
  = Ok (bucket, path +:+ "/" +:+ id +:+ ".csv").
Proof.
  intros Hb Hne Hp.
  assert (E : ensure_no_trailing_slash
                ("s3://" +:+ bucket +:+ "/" +:+ path +:+ Str.repeat slash n)
              = "s3://" +:+ bucket +:+ "/" +:+ path).
  { unfold ensure_no_trailing_slash.
    rewrite <- !append_assoc_str. apply rstrip_append_repeat.
    now rewrite endswith_append. }
  split; [exact E |].
  rewrite E, !append_assoc_str. now apply parse_cut.
Qed.

Lemma path_location_address_witness :
  parse_s3_uri
    (ensure_no_trailing_slash
       ("s3://" +:+ "b" +:+ "/" +:+ "out/2024" +:+ Str.repeat slash 1)
     +:+ "/" +:+ "h1" +:+ ".csv")
  = Ok ("b", "out/2024" +:+ "/" +:+ "h1" +:+ ".csv").
Proof.
  apply (path_location_address "b" "out/2024" "h1" 1);
    [reflexivity | discriminate | reflexivity].
Defined.

(** ** The polling loop, on any service *)

Section PollLoopEndings.

Variable client : AthenaClient.
Variable id : string.

Lemma world_eta w : w = {| polls := polls w; calls := calls w; stdout := stdout w |}.
Proof. now destruct w. Qed.

Lemma after_polls_slept d : forall w, after_polls id d w = record_poll id (slept id d w).
Proof. induction d as [|d IH]; intros w; [reflexivity | apply IH]. Qed.

Lemma slept_polls d : forall w, polls (slept id d w) = polls w + d.
Proof.
  induction d as [|d IH]; intros w; cbn [slept]; [lia |].
  rewrite IH. cbn. lia.
Qed.

Lemma after_polls_world d w :
  after_polls id d w
  = {| polls := polls w + S d;
       calls := calls w ++ poll_trace id d;
       stdout := stdout w |}.
Proof.
  rewrite (world_eta (after_polls id d w)).
  now rewrite after_polls_polls, after_polls_calls, after_polls_stdout.
Qed.

(** After [d] answers with a running status the loop is where it
    started, [d] polls and sleeps later. *)
Lemma poll_loop_skip d :
  forall fuel st response w,
    running st = true ->
    (forall k, k < d ->
       exists rk, get_query_execution client id (polls w + k) = Ok rk /\
                  running (State rk) = true) ->
    exists st' response',
      running st' = true /\
      poll_loop (d + fuel) client id st response w
      = poll_loop fuel client id st' response' (slept id d w).
Proof.
  induction d as [|d IH]; intros fuel st response w Hst Hk.
  - now exists st, response.
  - destruct (Hk 0) as (r0 & Hr0 & Hrun0); [lia |].
    rewrite Nat.add_0_r in Hr0.
    change (S d + fuel) with (S (d + fuel)).
    rewrite poll_loop_step, Hst, Hr0, (running_not_final _ Hrun0).
    cbn [slept]. apply IH; [assumption |].
    intros k Hlt. destruct (Hk (S k)) as (rk & Hrk & Hrunk); [lia |].
    exists rk. split; [| assumption].
    cbn [polls record_call record_poll].
    now replace (S (polls w) + k) with (polls w + S k) by lia.
Qed.

(** The poll after them decides. *)
Lemma poll_loop_last n f st response w :
  running st = true ->
  polls w = 0 ->
  (forall k, k < n ->
     exists rk, get_query_execution client id k = Ok rk /\
                running (State rk) = true) ->
  poll_loop (n + S f) client id st response w
  = match get_query_execution client id n with
    | Ok r =>
        if final (State r) then
          Some (Ok (State r, GetResponse r), after_polls id n w)
        else
          poll_loop f client id (State r) (GetResponse r)
            (record_call (CallSleep 2) (after_polls id n w))
    | Raise e => Some (Raise e, after_polls id n w)
    end.
Proof.
  intros Hst Hw Hk.
  destruct (poll_loop_skip n (S f) st response w Hst) as (st' & response' & Hst' & ->).
  { intros k Hlt. rewrite Hw. now apply Hk. }
  rewrite poll_loop_step, Hst', slept_polls, Hw, after_polls_slept.
  reflexivity.
Qed.

(** A service that answers every poll with a running status keeps the
    loop going whatever the fuel. *)
Lemma poll_loop_forever fuel :
  forall st response w,
    running st = true ->
    (forall k, exists rk, get_query_execution client id k = Ok rk /\
                          running (State rk) = true) ->
    poll_loop fuel client id st response w = None.
Proof.
  induction fuel as [|fuel IH]; intros st response w Hst Hk; [reflexivity |].
  rewrite poll_loop_step, Hst.
  destruct (Hk (polls w)) as (rk & -> & Hrun).
  rewrite (running_not_final _ Hrun). now apply IH.
Qed.

(** What a loop that comes to an end has done, on any service. *)
Lemma poll_loop_trace fuel :
  forall st response w res w',
    running st = true ->
    poll_loop fuel client id st response w = Some (res, w') ->
    stdout w' = stdout w /\
    exists n,
      polls w' = polls w + S n /\
      ((calls w' = calls w ++ poll_trace id n /\
        forall st' response', res = Ok (st', response') ->
          final st' = true /\
          exists r, response' = GetResponse r /\ State r = st') \/
       (calls w' = calls w ++ poll_trace id n ++ [CallSleep 2] /\
        exists r, res = Ok (State r, GetResponse r) /\
                  running (State r) = false /\ final (State r) = false)).
Proof.
  induction fuel as [|fuel IH]; intros st response w res w' Hst; [discriminate |].
  rewrite poll_loop_step, Hst.
  destruct (get_query_execution client id (polls w)) as [r | e].
  - destruct (final (State r)) eqn:Hf.
    + intros [= <- <-]. split; [reflexivity |]. exists 0.
      split; [cbn; lia |]. left. split; [reflexivity |].
      intros st' response' [= <- <-]. split; [assumption |]. now exists r.
    + destruct (running (State r)) eqn:Hr.
      * intros H. destruct (IH _ _ _ _ _ Hr H) as (Hout & n & Hp & Hc).
        split; [exact Hout |]. exists (S n).
        split; [rewrite Hp; cbn; lia |].
        cbn [calls record_call record_poll] in Hc. cbn [poll_trace].
        destruct Hc as [[Hc Hres] | [Hc Hres]]; [left | right];
          (split; [| exact Hres]); rewrite Hc, <- !app_assoc; reflexivity.
      * destruct fuel as [|fuel]; [discriminate |].
        rewrite poll_loop_step, Hr. intros [= <- <-].
        split; [reflexivity |]. exists 0. split; [cbn; lia |]. right.
        split; [cbn; now rewrite <- app_assoc |]. now exists r.
  - intros [= <- <-]. split; [reflexivity |]. exists 0.
    split; [cbn; lia |]. left. split; [reflexivity |]. discriminate.
Qed.

End PollLoopEndings.

(** ** The query runner, on any service *)

Lemma final_false_not_succeeded s : final s = false -> String.eqb s "SUCCEEDED" = false.
Proof.
  unfold final, str_in. cbn [existsb]. intros H.
  now apply orb_false_iff in H as [H _].
Qed.

(** The runner once the handle is there: the loop, then the test of the
    status. *)
Lemma execute_unfold fuel boto3 query database output_location profile
    session client id :
  boto3 profile = Ok session ->
  client_athena session = Ok client ->
  start_query_execution client query database output_location = Ok id ->
  execute_athena_query fuel boto3 query database output_location profile world0
  = match poll_loop fuel client id "RUNNING" (StartResponse id)
            (record_call (CallStartQueryExecution query database output_location)
               world0) with
    | None => None
    | Some (Ok (st, response), w) =>
        if String.eqb st "SUCCEEDED" then
          Some (Ok (output_location +:+ "/" +:+ id +:+ ".csv"), w)
        else
          match state_change_reason response with
          | Ok reason =>
              Some (Raise (Exception ("Query " +:+ st +:+ ": " +:+ reason)), w)
          | Raise e => Some (Raise e, w)
          end
    | Some (Raise e, w) => Some (Raise e, w)
    end.
Proof.
  intros Hs Hc Hstart.
  unfold execute_athena_query, bind, lift, call_start_query_execution, raise, ret.
  rewrite Hs, Hc, Hstart.
  destruct (poll_loop fuel client id "RUNNING" _ _) as [[[[st response] | e] w] |];
    try reflexivity.
  destruct (String.eqb st "SUCCEEDED"); [reflexivity |].
  now destruct (state_change_reason response).
Qed.

Lemma poll_trace_app_no_download id n cs :
  existsb is_download cs = false ->
  existsb is_download (poll_trace id n ++ cs) = false.
Proof. intros H. now rewrite existsb_app, poll_trace_no_download. Qed.

(** X5.  A status that is neither running nor final ends the loop too,
    after one more sleep, and the runner reports it as a failure: the
    exception holds the status and the reason, or is the [KeyError] of
    the missing reason. *)
Theorem unknown_status_reported
    (fuel : nat) (boto3 : Boto3)
    (query database output_location profile : string)
    (client : AthenaClient) (id : string) (n : nat) (r : StatusResponse) :
  Submitted boto3 profile query database output_location client id n ->
  get_query_execution client id n = Ok r ->
  running (State r) = false ->
  final (State r) = false ->
  n + 1 < fuel ->
  execute_athena_query fuel boto3 query database output_location profile world0
  = Some (match StateChangeReason r with
          | Some reason =>
              Raise (Exception ("Query " +:+ State r +:+ ": " +:+ reason))
          | None => Raise (KeyError "StateChangeReason")
          end,
          record_call (CallSleep 2)
            (after_execution query database output_location id n)).
Proof.
  intros (session & Hs & Hc & Hstart & Hk) Hr Hrun Hfin Hfuel.
  rewrite (execute_unfold _ _ _ _ _ _ _ _ _ Hs Hc Hstart).
  replace fuel with (n + S (S (fuel - n - 2))) by lia.
  rewrite poll_loop_last, Hr, Hfin by (assumption || reflexivity).
  rewrite poll_loop_step, Hrun, (final_false_not_succeeded _ Hfin).
  unfold state_change_reason, after_execution.
  now destruct (StateChangeReason r).
Qed.

Lemma unknown_status_reported_witness :
  execute_athena_query 3
    (scripted_boto3 "h1" [answer "RUNNING" None]
       (answer "PAUSED" (Some "maintenance")) (Ok tt))
    "SELECT 1" "db1" "s3://b/out" "p" world0
  = Some (Raise (Exception ("Query " +:+ "PAUSED" +:+ ": " +:+ "maintenance")),
          record_call (CallSleep 2)
            (after_execution "SELECT 1" "db1" "s3://b/out" "h1" 1)).
Proof.
  refine (unknown_status_reported 3
            (scripted_boto3 "h1" [answer "RUNNING" None]
               (answer "PAUSED" (Some "maintenance")) (Ok tt))
            "SELECT 1" "db1" "s3://b/out" "p"
            (scripted_athena "h1" [answer "RUNNING" None]
               (answer "PAUSED" (Some "maintenance")))
            "h1" 1 (answer "PAUSED" (Some "maintenance")) _ _ _ _ _).
  - eexists. split; [reflexivity |]. split; [reflexivity |]. split; [reflexivity |].
    intros [|k] Hk; [| lia]. eexists. split; reflexivity.
  - reflexivity.
  - reflexivity.
  - reflexivity.
  - lia.
Defined.

(** X6.  A final status other than [SUCCEEDED] that comes without a
    reason makes the runner raise the [KeyError] of the missing key
    instead of the exception with the status; [main] prints the name of
    the key as the error. *)
Theorem missing_reason_raises_key_error
    (fuel : nat) (boto3 : Boto3) (environ : gmap string string) (argv : Argv)
    (id : string) (n : nat) (r : StatusResponse) :
  let args := parse_args environ argv in
  let location := ensure_no_trailing_slash (output_location args) in
  Execution boto3 (profile args) (query args) (database args) location id n r ->
  String.eqb (State r) "SUCCEEDED" = false ->
  StateChangeReason r = None ->
  n < fuel ->
  execute_athena_query fuel boto3 (query args) (database args) location
    (profile args) world0
  = Some (Raise (KeyError "StateChangeReason"),
          after_execution (query args) (database args) location id n) /\
  main fuel boto3 environ argv world0
  = Some (Ok tt,
          record_print "Error: 'StateChangeReason'"
            (after_execution (query args) (database args) location id n)).
Proof.
  intros args location Hex Hne Hnone Hfuel.
  pose proof (execute_run _ _ _ _ _ _ _ _ _ Hex Hfuel) as Hrun.
  cbv zeta in Hrun. rewrite Hne, Hnone in Hrun.
  split; [exact Hrun |].
  now apply (main_body_execute_raises fuel boto3 args (KeyError "StateChangeReason")).
Qed.

Lemma missing_reason_raises_key_error_witness :
  main 1
    (scripted_boto3 "h1" [] (answer "CANCELLED" None) (Ok tt))
    ∅
    {| argv_query := "SELECT 1"; argv_database := Some "db1";
       argv_output_location := Some "s3://b/out"; argv_profile := Some "p";
       argv_output_file := None |}
    world0
  = Some (Ok tt,
          record_print "Error: 'StateChangeReason'"
            (after_execution "SELECT 1" "db1"
               (ensure_no_trailing_slash "s3://b/out") "h1" 0)).
Proof.
  refine (proj2 (missing_reason_raises_key_error 1
            (scripted_boto3 "h1" [] (answer "CANCELLED" None) (Ok tt))
            ∅
            {| argv_query := "SELECT 1"; argv_database := Some "db1";
               argv_output_location := Some "s3://b/out"; argv_profile := Some "p";
               argv_output_file := None |}
            "h1" 0 (answer "CANCELLED" None) _ _ _ _)).
  - apply (scripted_execution "h1" []); reflexivity.
  - reflexivity.
  - reflexivity.
  - lia.
Defined.

(** X7.  An error of a poll ends the run at that poll: the runner raises
    it after exactly the polls made so far, without another attempt, and
    [main] prints it. *)
Theorem poll_error_not_retried
    (fuel : nat) (boto3 : Boto3) (environ : gmap string string) (argv : Argv)
    (client : AthenaClient) (id : string) (n : nat) (e : Exn) :
  let args := parse_args environ argv in
  let location := ensure_no_trailing_slash (output_location args) in
  Submitted boto3 (profile args) (query args) (database args) location client id n ->
  get_query_execution client id n = Raise e ->
  is_Exception e = true ->
  n < fuel ->
  let w := after_execution (query args) (database args) location id n in
  execute_athena_query fuel boto3 (query args) (database args) location
    (profile args) world0
  = Some (Raise e, w) /\
  polls w = S n /\
  count_polls (calls w) = S n /\
  main fuel boto3 environ argv world0
  = Some (Ok tt, record_print ("Error: " +:+ str e) w).
Proof.
  intros args location (session & Hs & Hc & Hstart & Hk) Hr He Hfuel w.
  assert (Hx : execute_athena_query fuel boto3 (query args) (database args) location
                 (profile args) world0 = Some (Raise e, w)).
  { rewrite (execute_unfold _ _ _ _ _ _ _ _ _ Hs Hc Hstart).
    replace fuel with (n + S (fuel - S n)) by lia.
    now rewrite poll_loop_last, Hr by (assumption || reflexivity). }
  split; [exact Hx |].
  split; [unfold w, after_execution; now rewrite after_polls_polls |].
  split; [| now apply main_body_execute_raises].
  unfold w. rewrite after_execution_calls. unfold count_polls.
  rewrite filter_cons. cbn [is_poll]. rewrite decide_False by (intros []).
  apply poll_trace_count.
Qed.

Lemma poll_error_not_retried_witness :
  main 2
    (boto3_of (Ok (failing_athena "h1" [answer "RUNNING" None]
                     (ClientError "ThrottlingException")))
       (Ok {| download_file := fun _ _ _ => Ok tt |}))
    ∅
    {| argv_query := "SELECT 1"; argv_database := Some "db1";
       argv_output_location := Some "s3://b/out"; argv_profile := Some "p";
       argv_output_file := None |}
    world0
  = Some (Ok tt,
          record_print ("Error: " +:+ str (ClientError "ThrottlingException"))
            (after_execution "SELECT 1" "db1"
               (ensure_no_trailing_slash "s3://b/out") "h1" 1)).
Proof.
  refine (proj2 (proj2 (proj2 (poll_error_not_retried 2
            (boto3_of (Ok (failing_athena "h1" [answer "RUNNING" None]
                             (ClientError "ThrottlingException")))
               (Ok {| download_file := fun _ _ _ => Ok tt |}))
            ∅
            {| argv_query := "SELECT 1"; argv_database := Some "db1";
               argv_output_location := Some "s3://b/out"; argv_profile := Some "p";
               argv_output_file := None |}
            (failing_athena "h1" [answer "RUNNING" None]
               (ClientError "ThrottlingException"))
            "h1" 1 (ClientError "ThrottlingException") _ _ _ _)))).
  - eexists. split; [reflexivity |]. split; [reflexivity |]. split; [reflexivity |].
    intros [|k] Hk; [| lia]. eexists. split; reflexivity.
  - reflexivity.
  - reflexivity.
  - lia.
Defined.

(** When the session, the Athena client or the submission fails, the
    runner raises that error at once, whatever the fuel: no poll is
    made, and when it is the session or the client that fails, no call
    at all. *)
Lemma failure_before_polling
    (fuel : nat) (boto3 : Boto3)
    (query database output_location profile : string) (e : Exn) :
  (boto3 profile = Raise e ->
   execute_athena_query fuel boto3 query database output_location profile world0
   = Some (Raise e, world0)) /\
  (forall session,
     boto3 profile = Ok session ->
     client_athena session = Raise e ->
     execute_athena_query fuel boto3 query database output_location profile world0
     = Some (Raise e, world0)) /\
  (forall session client,
     boto3 profile = Ok session ->
     client_athena session = Ok client ->
     start_query_execution client query database output_location = Raise e ->
     execute_athena_query fuel boto3 query database output_location profile world0
     = Some (Raise e,
             {| polls := 0;
                calls := [CallStartQueryExecution query database output_location];
                stdout := [] |})).
Proof.
  unfold execute_athena_query, bind, lift, call_start_query_execution.
  split; [now intros -> |].
  split; [now intros session -> -> |].
  now intros session client -> -> ->.
Qed.

(** X8.  The loop has no bound of its own: when the service answers
    every poll with a running status, no amount of fuel brings the
    runner, or [main], to an end. *)
Theorem polling_unbounded
    (boto3 : Boto3) (environ : gmap string string) (argv : Argv)
    (client : AthenaClient) (id : string) :
  let args := parse_args environ argv in
  let location := ensure_no_trailing_slash (output_location args) in
  (forall n,
     Submitted boto3 (profile args) (query args) (database args) location
       client id n) ->
  forall fuel,
    execute_athena_query fuel boto3 (query args) (database args) location
      (profile args) world0 = None /\
    main fuel boto3 environ argv world0 = None.
Proof.
  intros args location Hsub fuel.
  assert (Hx : execute_athena_query fuel boto3 (query args) (database args) location
                 (profile args) world0 = None).
  { destruct (Hsub 0) as (session & Hs & Hc & Hstart & _).
    rewrite (execute_unfold _ _ _ _ _ _ _ _ _ Hs Hc Hstart).
    rewrite poll_loop_forever; [reflexivity | reflexivity |].
    intros k. destruct (Hsub (S k)) as (session' & Hs' & Hc' & _ & Hk).
    apply Hk. lia. }
  split; [exact Hx |].
  unfold main, main_body, try_except, bind. fold args. fold location.
  now rewrite Hx.
Qed.

Lemma polling_unbounded_witness :
  main 1000
    (scripted_boto3 "h1" [] (answer "RUNNING" None) (Ok tt))
    ∅
    {| argv_query := "SELECT 1"; argv_database := None;
       argv_output_location := None; argv_profile := None;
       argv_output_file := None |}
    world0
  = None.
Proof.
  refine (proj2 (polling_unbounded
            (scripted_boto3 "h1" [] (answer "RUNNING" None) (Ok tt))
            ∅
            {| argv_query := "SELECT 1"; argv_database := None;
               argv_output_location := None; argv_profile := None;
               argv_output_file := None |}
            (scripted_athena "h1" [] (answer "RUNNING" None)) "h1" _ 1000)).
  intros n. eexists. split; [reflexivity |]. split; [reflexivity |].
  split; [reflexivity |].
  intros k _. exists (answer "RUNNING" None). split; [| reflexivity].
  now destruct k.
Defined.

Lemma execute_shape
    (fuel : nat) (boto3 : Boto3)
    (query database output_location profile : string)
    (res : result string) (w : World) :
  execute_athena_query fuel boto3 query database output_location profile world0
  = Some (res, w) ->
  stdout w = [] /\
  runner_trace query database output_location (calls w) /\
  existsb is_download (calls w) = false /\
  (forall s3_uri, res = Ok s3_uri ->
     exists id n,
       s3_uri = output_location +:+ "/" +:+ id +:+ ".csv" /\
       calls w = CallStartQueryExecution query database output_location
                 :: poll_trace id n /\
       polls w = S n).
Proof.
  destruct (boto3 profile) as [session | e] eqn:Hs.
  2:{ rewrite (proj1 (failure_before_polling fuel boto3 query database
                      output_location profile e) Hs).
    intros [= <- <-]. split; [reflexivity |]. split; [now left |].
    split; [reflexivity | discriminate]. }
  destruct (client_athena session) as [client | e] eqn:Hc.
  2:{ rewrite (proj1 (proj2 (failure_before_polling fuel boto3 query database
                             output_location profile e)) session Hs Hc).
    intros [= <- <-]. split; [reflexivity |]. split; [now left |].
    split; [reflexivity | discriminate]. }
  destruct (start_query_execution client query database output_location)
    as [id | e] eqn:Hstart.
  2:{ rewrite (proj2 (proj2 (failure_before_polling fuel boto3 query database
                               output_location profile e)) session client Hs Hc Hstart).
      intros [= <- <-]. split; [reflexivity |]. split; [right; now left |].
      split; [reflexivity | discriminate]. }
  rewrite (execute_unfold _ _ _ _ _ _ _ _ _ Hs Hc Hstart).
  destruct (poll_loop fuel client id "RUNNING" (StartResponse id) _)
    as [[rs w1] |] eqn:Hloop; [| discriminate].
  apply poll_loop_trace in Hloop as (Hout & n & Hp & Hcalls); [| reflexivity].
  cbn [polls calls stdout record_call world0 app] in Hout, Hp, Hcalls.
  assert (Hshape : stdout w1 = [] /\
            runner_trace query database output_location (calls w1) /\
            existsb is_download (calls w1) = false).
  { split; [exact Hout |].
    destruct Hcalls as [[Hcs _] | [Hcs _]]; rewrite Hcs; split.
    - right. right. exists id, n. now left.
    - cbn [existsb is_download orb]. apply poll_trace_no_download.
    - right. right. exists id, n. now right.
    - cbn [existsb is_download orb]. now apply poll_trace_app_no_download. }
  destruct rs as [[st response] | e].
  - destruct (String.eqb st "SUCCEEDED") eqn:Hst.
    + intros [= <- <-]. destruct Hshape as (H1 & H2 & H3).
      split; [exact H1 |]. split; [exact H2 |]. split; [exact H3 |].
      intros s3_uri [= <-]. exists id, n. split; [reflexivity |].
      destruct Hcalls as [[Hcs _] | [_ (r & [= -> ->] & _ & Hnf)]].
      * now split.
      * apply final_false_not_succeeded in Hnf. congruence.
    + destruct (state_change_reason response);
        intros [= <- <-]; destruct Hshape as (H1 & H2 & H3);
        (split; [exact H1 |]); (split; [exact H2 |]); (split; [exact H3 |]);
        discriminate.
  - intros [= <- <-]. destruct Hshape as (H1 & H2 & H3).
    split; [exact H1 |]. split; [exact H2 |]. split; [exact H3 |]. discriminate.
Qed.



(** ** The artifact fetcher and [main], on any service *)

(** What the fetcher has done when it comes back. *)
Lemma download_shape boto3 s3_uri profile output_file w res w' :
  download_csv_from_s3 boto3 s3_uri profile output_file w = Some (res, w') ->
  stdout w' = stdout w /\
  polls w' = polls w /\
  ((calls w' = calls w /\ exists e, res = Raise e) \/
   (exists session s3 bucket key,
      boto3 profile = Ok session /\
      client_s3 session = Ok s3 /\
      parse_s3_uri s3_uri = Ok (bucket, key) /\
      res = download_file s3 bucket key output_file /\
      calls w' = calls w ++ [CallDownloadFile bucket key output_file])).
Proof.
  unfold download_csv_from_s3, bind, lift, call_download_file.
  destruct (boto3 profile) as [session | e] eqn:Hs;
    [| intros [= <- <-]; repeat split; left; eauto].
  destruct (client_s3 session) as [s3 | e] eqn:Hc;
    [| intros [= <- <-]; repeat split; left; eauto].
  destruct (parse_s3_uri s3_uri) as [[bucket key] | e] eqn:Hp;
    [| intros [= <- <-]; repeat split; left; eauto].
  intros [= <- <-]. repeat split. right.
  exists session, s3, bucket, key. repeat split; assumption.
Qed.

(** X10.  The fetcher prints nothing and calls [download_file] at most
    once.  When it does, the address is the prefix, the bucket, a
    separator and the key it passes, the bucket has no separator, the
    file is the one it was given, and the result of the call is its own
    result; for an address the parser rejects it makes no call. *)
Theorem download_target
    (boto3 : Boto3) (s3_uri profile output_file : string)
    (w : World) (res : result unit) (w' : World) :
  download_csv_from_s3 boto3 s3_uri profile output_file w = Some (res, w') ->
  stdout w' = stdout w /\
  ((calls w' = calls w /\ exists e, res = Raise e) \/
   (exists bucket key,
      s3_uri = "s3://" +:+ bucket +:+ "/" +:+ key /\
      Str.contains slash bucket = false /\
      calls w' = calls w ++ [CallDownloadFile bucket key output_file])) /\
  (forall e, parse_s3_uri s3_uri = Raise e -> calls w' = calls w).
Proof.
  intros H. destruct (download_shape _ _ _ _ _ _ _ H) as (Hout & _ & Hcalls).
  split; [exact Hout |]. split.
  - destruct Hcalls as [Hc | (session & s3 & bucket & key & _ & _ & Hp & _ & Hc)];
      [now left | right].
    exists bucket, key. destruct (parse_ok_inv _ _ _ Hp) as [Hs Hb]. now repeat split.
  - intros e He.
    destruct Hcalls as [[Hc _] | (session & s3 & bucket & key & _ & _ & Hp & _)];
      [exact Hc | congruence].
Qed.

Lemma download_target_witness :
  stdout (record_call (CallDownloadFile "b" "out/h1.csv" "out.csv") world0)
  = stdout world0 /\
  ((calls (record_call (CallDownloadFile "b" "out/h1.csv" "out.csv") world0)
    = calls world0 /\ exists e, Ok tt = Raise e) \/
   (exists bucket key,
      "s3://b/out/h1.csv" = "s3://" +:+ bucket +:+ "/" +:+ key /\
      Str.contains slash bucket = false /\
      calls (record_call (CallDownloadFile "b" "out/h1.csv" "out.csv") world0)
      = calls world0 ++ [CallDownloadFile bucket key "out.csv"])) /\
  (forall e, parse_s3_uri "s3://b/out/h1.csv" = Raise e ->
     calls (record_call (CallDownloadFile "b" "out/h1.csv" "out.csv") world0)
     = calls world0).
Proof.
  apply (download_target
           (scripted_boto3 "h1" [] (answer "SUCCEEDED" None) (Ok tt))
           "s3://b/out/h1.csv" "p" "out.csv" world0 (Ok tt)).
  reflexivity.
Defined.

(** X11.  The complete run on success: for an execution that ends with
    [SUCCEEDED], an S3 client that is obtained, a derived address the
    parser accepts and a transfer that succeeds, [main] makes the
    submission, the polls and one download of the parsed bucket and key
    to the output file, prints the address and the path of the file,
    and returns. *)
Theorem main_success_run
    (fuel : nat) (boto3 : Boto3) (environ : gmap string string) (argv : Argv)
    (id : string) (n : nat) (r : StatusResponse)
    (session : Session) (s3 : S3Client) (bucket key : string) :
  let args := parse_args environ argv in
  let location := ensure_no_trailing_slash (output_location args) in
  Execution boto3 (profile args) (query args) (database args) location id n r ->
  State r = "SUCCEEDED" ->
  n < fuel ->
  boto3 (profile args) = Ok session ->
  client_s3 session = Ok s3 ->
  parse_s3_uri (location +:+ "/" +:+ id +:+ ".csv") = Ok (bucket, key) ->
  download_file s3 bucket key (output_file args) = Ok tt ->
  main fuel boto3 environ argv world0
  = Some (Ok tt,
          {| polls := S n;
             calls := CallStartQueryExecution (query args) (database args) location
                      :: poll_trace id n
                      ++ [CallDownloadFile bucket key (output_file args)];
             stdout := ["Query succeeded. Result saved in: "
                        +:+ (location +:+ "/" +:+ id +:+ ".csv");
                        "CSV downloaded successfully to: " +:+ output_file args] |}).
Proof.
  intros args location Hex Hst Hfuel Hs Hc Hp Hd.
  pose proof (execute_run _ _ _ _ _ _ _ _ _ Hex Hfuel) as Hrun.
  cbv zeta in Hrun. rewrite Hst in Hrun.
  change (String.eqb "SUCCEEDED" "SUCCEEDED") with true in Hrun. cbv iota in Hrun.
  unfold main, main_body, try_except, bind, print. fold args. fold location.
  rewrite Hrun.
  unfold download_csv_from_s3, bind, lift, call_download_file.
  rewrite Hs, Hc, Hp, Hd.
  unfold after_execution. rewrite after_polls_world. reflexivity.
Qed.

Lemma main_success_run_witness :
  main 2
    (scripted_boto3 "h1" [answer "RUNNING" None] (answer "SUCCEEDED" None) (Ok tt))
    ∅
    {| argv_query := "SELECT 1"; argv_database := Some "db1";
       argv_output_location := Some "s3://b/out/"; argv_profile := Some "p";
       argv_output_file := None |}
    world0
  = Some (Ok tt,
          {| polls := 2;
             calls := CallStartQueryExecution "SELECT 1" "db1"
                        (ensure_no_trailing_slash "s3://b/out/")
                      :: poll_trace "h1" 1
                      ++ [CallDownloadFile "b" "out/h1.csv" "out.csv"];
             stdout := ["Query succeeded. Result saved in: "
                        +:+ (ensure_no_trailing_slash "s3://b/out/"
                             +:+ "/" +:+ "h1" +:+ ".csv");
                        "CSV downloaded successfully to: " +:+ "out.csv"] |}).
Proof.
  refine (main_success_run 2
            (scripted_boto3 "h1" [answer "RUNNING" None] (answer "SUCCEEDED" None) (Ok tt))
            ∅
            {| argv_query := "SELECT 1"; argv_database := Some "db1";
               argv_output_location := Some "s3://b/out/"; argv_profile := Some "p";
               argv_output_file := None |}
            "h1" 1 (answer "SUCCEEDED" None)
            {| client_athena := Ok (scripted_athena "h1" [answer "RUNNING" None]
                                      (answer "SUCCEEDED" None));
               client_s3 := Ok {| download_file := fun _ _ _ => Ok tt |} |}
            {| download_file := fun _ _ _ => Ok tt |}
            "b" "out/h1.csv" _ _ _ _ _ _ _).
  - apply (scripted_execution "h1" [answer "RUNNING" None]); reflexivity.
  - reflexivity.
  - lia.
  - reflexivity.
  - reflexivity.
  - reflexivity.
  - reflexivity.
Defined.

(** X12.  A derived address that the parser rejects is found out only
    after the query has run: the submission and the polls are made, the
    address is printed as the result, then the parser's error, and no
    download is made. *)
Theorem malformed_location_found_late
    (fuel : nat) (boto3 : Boto3) (environ : gmap string string) (argv : Argv)
    (id : string) (n : nat) (r : StatusResponse)
    (session : Session) (s3 : S3Client) (e : Exn) :
  let args := parse_args environ argv in
  let location := ensure_no_trailing_slash (output_location args) in
  Execution boto3 (profile args) (query args) (database args) location id n r ->
  State r = "SUCCEEDED" ->
  n < fuel ->
  boto3 (profile args) = Ok session ->
  client_s3 session = Ok s3 ->
  parse_s3_uri (location +:+ "/" +:+ id +:+ ".csv") = Raise e ->
  main fuel boto3 environ argv world0
  = Some (Ok tt,
          {| polls := S n;
             calls := CallStartQueryExecution (query args) (database args) location
                      :: poll_trace id n;
             stdout := ["Query succeeded. Result saved in: "
                        +:+ (location +:+ "/" +:+ id +:+ ".csv");
                        "Error: " +:+ str e] |}).
Proof.
  intros args location Hex Hst Hfuel Hs Hc Hp.
  pose proof (execute_run _ _ _ _ _ _ _ _ _ Hex Hfuel) as Hrun.
  cbv zeta in Hrun. rewrite Hst in Hrun.
  change (String.eqb "SUCCEEDED" "SUCCEEDED") with true in Hrun. cbv iota in Hrun.
  unfold main, main_body, try_except, bind, print. fold args. fold location.
  rewrite Hrun.
  unfold download_csv_from_s3, bind, lift.
  rewrite Hs, Hc, Hp, (parse_raise_is_exception _ _ Hp).
  unfold after_execution. rewrite after_polls_world. reflexivity.
Qed.

Lemma malformed_location_found_late_witness :
  main 1
    (scripted_boto3 "h1" [] (answer "SUCCEEDED" None) (Ok tt))
    ∅
    {| argv_query := "SELECT 1"; argv_database := Some "db1";
       argv_output_location := Some "/tmp/results"; argv_profile := Some "p";
       argv_output_file := None |}
    world0
  = Some (Ok tt,
          {| polls := 1;
             calls := CallStartQueryExecution "SELECT 1" "db1"
                        (ensure_no_trailing_slash "/tmp/results")
                      :: poll_trace "h1" 0;
             stdout := ["Query succeeded. Result saved in: "
                        +:+ (ensure_no_trailing_slash "/tmp/results"
                             +:+ "/" +:+ "h1" +:+ ".csv");
                        "Error: "
                        +:+ str (ValueError "Invalid S3 URI. Must start with 's3://'")] |}).
Proof.
  refine (malformed_location_found_late 1
            (scripted_boto3 "h1" [] (answer "SUCCEEDED" None) (Ok tt))
            ∅
            {| argv_query := "SELECT 1"; argv_database := Some "db1";
               argv_output_location := Some "/tmp/results"; argv_profile := Some "p";
               argv_output_file := None |}
            "h1" 0 (answer "SUCCEEDED" None)
            {| client_athena := Ok (scripted_athena "h1" [] (answer "SUCCEEDED" None));
               client_s3 := Ok {| download_file := fun _ _ _ => Ok tt |} |}
            {| download_file := fun _ _ _ => Ok tt |}
            (ValueError "Invalid S3 URI. Must start with 's3://'") _ _ _ _ _ _).
  - apply (scripted_execution "h1" []); reflexivity.
  - reflexivity.
  - lia.
  - reflexivity.
  - reflexivity.
  - reflexivity.
Defined.

(** X13.  Every run of [main] that comes to an end, on any service,
    either lets through an error that is no instance of [Exception], or
    returns after one of three outputs: the error line alone, with no
    download made; the address line and the error line, with at most
    one download, made last; or the address line and the line of
    success, with exactly one download, made last, of the bucket and key
    the address parses to, into the output file.  The line of success
    is never printed without that download. *)
Theorem main_outcomes
    (fuel : nat) (boto3 : Boto3) (environ : gmap string string) (argv : Argv)
    (res : result unit) (w : World) :
  main fuel boto3 environ argv world0 = Some (res, w) ->
  let file := output_file (parse_args environ argv) in
  (exists e, res = Raise e /\ is_Exception e = false) \/
  (res = Ok tt /\
   exists cs,
     existsb is_download cs = false /\
     ((exists e, stdout w = ["Error: " +:+ str e] /\ calls w = cs) \/
      (exists s3_uri e,
         stdout w = ["Query succeeded. Result saved in: " +:+ s3_uri;
                     "Error: " +:+ str e] /\
         (calls w = cs \/
          exists bucket key,
            parse_s3_uri s3_uri = Ok (bucket, key) /\
            calls w = cs ++ [CallDownloadFile bucket key file])) \/
      (exists s3_uri bucket key,
         stdout w = ["Query succeeded. Result saved in: " +:+ s3_uri;
                     "CSV downloaded successfully to: " +:+ file] /\
         parse_s3_uri s3_uri = Ok (bucket, key) /\
         calls w = cs ++ [CallDownloadFile bucket key file]))).
Proof.
  intros Hm file. revert Hm. unfold file. clear file.
  unfold main, main_body, try_except, bind, print.
  set (args := parse_args environ argv).
  destruct (execute_athena_query fuel boto3 (query args) (database args)
              (ensure_no_trailing_slash (output_location args)) (profile args) world0)
    as [[rx w1] |] eqn:Hx; [| discriminate].
  destruct (execute_shape _ _ _ _ _ _ _ _ Hx) as (Hout1 & _ & Hnd1 & _).
  destruct rx as [s3_uri | e].
  - destruct (download_total boto3 s3_uri (profile args) (output_file args)
                (record_print ("Query succeeded. Result saved in: " +:+ s3_uri) w1))
      as (rd & wd & Hd).
    rewrite Hd.
    destruct (download_shape _ _ _ _ _ _ _ Hd) as (Houtd & _ & Hcd).
    cbn [stdout calls record_print] in Houtd, Hcd. rewrite Hout1 in Houtd.
    destruct rd as [[] | e].
    + intros [= <- <-]. right. split; [reflexivity |].
      exists (calls w1). split; [exact Hnd1 |]. right. right.
      destruct Hcd as [[_ (e & He)] | (session & s3 & bucket & key & _ & _ & Hp & _ & Hc)];
        [discriminate |].
      exists s3_uri, bucket, key. cbn [stdout calls record_print].
      rewrite Houtd. now repeat split.
    + destruct (is_Exception e) eqn:He.
      * intros [= <- <-]. right. split; [reflexivity |].
        exists (calls w1). split; [exact Hnd1 |]. right. left.
        exists s3_uri, e. cbn [stdout calls record_print]. rewrite Houtd.
        split; [reflexivity |].
        destruct Hcd as [[Hc _] | (session & s3 & bucket & key & _ & _ & Hp & _ & Hc)];
          [now left | right]. now exists bucket, key.
      * intros [= <- <-]. left. now exists e.
  - destruct (is_Exception e) eqn:He.
    + intros [= <- <-]. right. split; [reflexivity |].
      exists (calls w1). split; [exact Hnd1 |]. left.
      exists e. cbn [stdout calls record_print]. now rewrite Hout1.
    + intros [= <- <-]. left. now exists e.
Qed.

Lemma main_outcomes_witness :
  let w := record_print ("Error: " +:+ "Query FAILED: boom")
             (after_execution "SELECT 1" "db1" "s3://b/out" "h1" 0) in
  (exists e, @Ok unit tt = Raise e /\ is_Exception e = false) \/
  (@Ok unit tt = Ok tt /\
   exists cs,
     existsb is_download cs = false /\
     ((exists e, stdout w = ["Error: " +:+ str e] /\ calls w = cs) \/
      (exists s3_uri e,
         stdout w = ["Query succeeded. Result saved in: " +:+ s3_uri;
                     "Error: " +:+ str e] /\
         (calls w = cs \/
          exists bucket key,
            parse_s3_uri s3_uri = Ok (bucket, key) /\
            calls w = cs ++ [CallDownloadFile bucket key "out.csv"])) \/
      (exists s3_uri bucket key,
         stdout w = ["Query succeeded. Result saved in: " +:+ s3_uri;
                     "CSV downloaded successfully to: " +:+ "out.csv"] /\
         parse_s3_uri s3_uri = Ok (bucket, key) /\
         calls w = cs ++ [CallDownloadFile bucket key "out.csv"]))).
Proof.
  apply (main_outcomes 1
           (scripted_boto3 "h1" [] (answer "FAILED" (Some "boom")) (Ok tt))
           ∅
           {| argv_query := "SELECT 1"; argv_database := Some "db1";
              argv_output_location := Some "s3://b/out"; argv_profile := Some "p";
              argv_output_file := None |}).
  reflexivity.
Defined.

(** ** The command line and the environment *)

Lemma repeat_app c m n : Str.repeat c m +:+ Str.repeat c n = Str.repeat c (m + n).
Proof.
  induction m as [|m IH]; [reflexivity |].
  cbn [Str.repeat Nat.add]. rewrite append_cons. now f_equal.
Qed.

Lemma rstrip_more c s n : Str.rstrip c (s +:+ Str.repeat c n) = Str.rstrip c s.
Proof.
  destruct (rstrip_removed c s) as (m & Hs).
  rewrite Hs at 1. rewrite append_assoc_str, repeat_app.
  apply rstrip_append_repeat, rstrip_endswith.
Qed.

(** X14.  Separators at the end of [--output-location] make no
    difference: with any number of them added, [main] does the same
    calls, prints the same lines and ends in the same way. *)
Theorem main_ignores_trailing_separators
    (fuel : nat) (boto3 : Boto3) (environ : gmap string string)
    (q : string) (db p f : option string) (location : string) (n : nat)
    (w : World) :
  main fuel boto3 environ
    {| argv_query := q; argv_database := db;
       argv_output_location := Some (location +:+ Str.repeat slash n);
       argv_profile := p; argv_output_file := f |} w
  = main fuel boto3 environ
      {| argv_query := q; argv_database := db;
         argv_output_location := Some location;
         argv_profile := p; argv_output_file := f |} w.
Proof.
  unfold main, main_body, parse_args.
  cbn [query database output_location profile output_file
       argv_query argv_database argv_output_location argv_profile argv_output_file].
  change (default DEFAULT_S3_OUTPUT_URL (Some (location +:+ Str.repeat slash n)))
    with (location +:+ Str.repeat slash n).
  change (default DEFAULT_S3_OUTPUT_URL (Some location)) with location.
  unfold ensure_no_trailing_slash. now rewrite rstrip_more.
Qed.

(** X15.  The default profile depends on the variable [AWS_PROFILE]
    only: setting any other variable of the environment leaves it as it
    was, setting [AWS_PROFILE] makes its value the default, and removing
    it brings back the fixed name. *)
Theorem default_profile_environment
    (environ : gmap string string) (name value : string) :
  name <> "AWS_PROFILE" ->
  DEFAULT_PROFILE (<[name := value]> environ) = DEFAULT_PROFILE environ /\
  DEFAULT_PROFILE (delete name environ) = DEFAULT_PROFILE environ /\
  DEFAULT_PROFILE (<["AWS_PROFILE" := value]> environ) = value /\
  DEFAULT_PROFILE (delete "AWS_PROFILE" environ) = "aberezin".
Proof.
  intros Hne. unfold DEFAULT_PROFILE.
  rewrite lookup_insert_ne, lookup_delete_ne, lookup_insert_eq, lookup_delete_eq
    by assumption.
  now repeat split.
Qed.

Lemma default_profile_environment_witness :
  DEFAULT_PROFILE (<["AWS_REGION" := "eu-west-1"]> {["AWS_PROFILE" := "prod"]})
  = DEFAULT_PROFILE {["AWS_PROFILE" := "prod"]}.
Proof.
  apply (default_profile_environment {["AWS_PROFILE" := "prod"]}
           "AWS_REGION" "eu-west-1").
  discriminate.
Defined.
